(** * CausalSent: the model wrapper and its training loop

    A shallow embedding of [causalign/modules/causal_sent.py] and
    [causalign/train_causal_sent.py].

    Conventions of the embedding:
    - a Python [int] is a [Z], a parameter count ([numel]) an [N];
    - a Python [float] and a tensor entry is an exact rational ([Qc]);
      rounding is not modelled, [nan] is written out where the code can
      produce it ([pyfloat]);
    - an exception is an [Err] of the [result] type, and a method that
      mutates [self] threads the model through ([method]);
    - [print] and [warnings.warn] calls have no effect on any value and are
      left out. *)

From Stdlib Require Import String Ascii.
From Stdlib Require Import ZArith NArith List Bool Lia.
From Stdlib Require Import QArith Qcanon.
Import ListNotations.
Local Open Scope string_scope.
Local Open Scope list_scope.

Set Implicit Arguments.

(* ================================================================== *)
(** * Part I: definitions *)
(* ================================================================== *)

(** ** Python values, exceptions and calls *)

Module Py.

Inductive exn : Type :=
| TypeError (msg : string)
| ValueError (msg : string)
| AttributeError (msg : string)
| AssertionError (msg : string)
| ZeroDivisionError
| IndexError
| RuntimeError (msg : string).

Inductive result (A : Type) : Type :=
| Ok (a : A)
| Err (e : exn).

Arguments Ok {A} a.
Arguments Err {A} e.

Definition bind {A B : Type} (r : result A) (k : A -> result B) : result B :=
  match r with
  | Ok a => k a
  | Err e => Err e
  end.

Definition is_ok {A : Type} (r : result A) : bool :=
  match r with
  | Ok _ => true
  | Err _ => false
  end.

(** [a / b] on two Python ints. *)
Definition truediv (a b : Z) : result Qc :=
  if (b =? 0)%Z then Err ZeroDivisionError
  else Ok (Q2Qc (inject_Z a) / Q2Qc (inject_Z b))%Qc.

(** [int(x)] on a float: truncation towards zero. *)
Definition int_of_float (x : Qc) : Z :=
  Z.quot (Qnum (this x)) (Zpos (Qden (this x))).

(** [a // b] on two Python ints, [b] positive in every use. *)
Definition floordiv (a b : Z) : Z := Z.div a b.

(** [x > y] on floats. *)
Definition gt (x y : Qc) : bool := negb (Qle_bool (this x) (this y)).

(** [l[-n:]] for a positive [n]: the last [n] items, all of [l] when [n]
    exceeds its length. *)
Definition last_n {A : Type} (n : Z) (l : list A) : list A :=
  skipn (List.length l - Z.to_nat n) l.

(** [l[i]] with Python's negative indices. *)
Definition index {A : Type} (l : list A) (i : Z) : result A :=
  let len := Z.of_nat (List.length l) in
  let j := if (i <? 0)%Z then (len + i)%Z else i in
  if ((j <? 0) || (len <=? j))%Z%bool then Err IndexError
  else match nth_error l (Z.to_nat j) with
       | Some a => Ok a
       | None => Err IndexError
       end.

(** [needle in haystack] on strings. *)
Fixpoint contains (needle haystack : string) : bool :=
  String.prefix needle haystack
  || match haystack with
     | EmptyString => false
     | String _ rest => contains needle rest
     end.

(** Sequencing a list of fallible computations, left to right. *)
Fixpoint mapM {A B : Type} (f : A -> result B) (l : list A) : result (list B) :=
  match l with
  | [] => Ok []
  | a :: rest =>
      bind (f a) (fun b => bind (mapM f rest) (fun bs => Ok (b :: bs)))
  end.

(** *** Binding the arguments of a keyword call

    A signature lists the parameter names after [self], each with its
    default when it has one; the functions here take no variadic
    parameters. *)

Section Calls.
Variable V : Type.

Definition signature := list (string * option V).

Definition has_param (sig : signature) (name : string) : bool :=
  existsb (fun p => String.eqb (fst p) name) sig.

Fixpoint lookup (kwargs : list (string * V)) (name : string) : option V :=
  match kwargs with
  | [] => None
  | (k, v) :: rest => if String.eqb k name then Some v else lookup rest name
  end.

(** A keyword the signature does not name is rejected first. *)
Fixpoint check_keywords (sig : signature) (kwargs : list (string * V))
  : result unit :=
  match kwargs with
  | [] => Ok tt
  | (k, _) :: rest =>
      if has_param sig k then check_keywords sig rest
      else Err (TypeError (String.append "got an unexpected keyword argument " k))
  end.

Fixpoint fill (sig : signature) (kwargs : list (string * V))
  : result (list (string * V)) :=
  match sig with
  | [] => Ok []
  | (name, default) :: rest =>
      match lookup kwargs name, default with
      | Some v, _ | None, Some v =>
          bind (fill rest kwargs) (fun bs => Ok ((name, v) :: bs))
      | None, None =>
          Err (TypeError (String.append "missing required argument " name))
      end
  end.

Definition bind_keywords (sig : signature) (kwargs : list (string * V))
  : result (list (string * V)) :=
  bind (check_keywords sig kwargs) (fun _ => fill sig kwargs).

End Calls.

End Py.

Import Py.

Declare Scope py_scope.
Delimit Scope py_scope with py.
Notation "x <- c1 ;; c2" := (Py.bind c1 (fun x => c2))
  (at level 61, c1 at next level, right associativity) : py_scope.
Notation "c1 ;;; c2" := (Py.bind c1 (fun _ => c2))
  (at level 61, right associativity) : py_scope.
Open Scope py_scope.

(** ** The model: parameters, backbone, heads *)

Module Model.

(** A [torch.nn.Parameter], as far as the code looks at it. *)
Record Param : Type := mkParam {
  numel : N;
  requires_grad : bool
}.

(** A submodule is known by the list its [parameters()] yields. *)
Definition Layer : Type := list Param.

(** The object behind the backbone's [encoder] or [transformer] attribute:
    its [layer] list, and the parameters it owns outside that list. *)
Record Encoder : Type := mkEncoder {
  layer : list Layer;
  enc_rest : list Param
}.

(** What [isinstance(self.backbone, ...)] can tell. *)
Inductive BackboneClass : Type :=
| DistilBertModel
| LlamaModel
| OtherModel.

Record Backbone : Type := mkBackbone {
  bb_class : BackboneClass;
  hidden_size : Z;                       (* config.hidden_size *)
  bb_rest : list Param;                  (* embeddings, norms, Llama's layers *)
  attr_encoder : option Encoder;         (* the attribute "encoder" *)
  attr_transformer : option Encoder      (* the attribute "transformer" *)
}.

Record CausalSent : Type := mkCausalSent {
  sentiment_head_type : string;
  riesz_head_type : string;
  backbone : Backbone;
  backbone_hidden_size : Z;
  riesz : list Param;
  sentiment : list Param;
  training : bool
}.

Definition encoder_parameters (e : Encoder) : list Param :=
  concat (layer e) ++ enc_rest e.

Definition opt_encoder_parameters (o : option Encoder) : list Param :=
  match o with
  | Some e => encoder_parameters e
  | None => []
  end.

(** [self.backbone.parameters()] *)
Definition backbone_parameters (b : Backbone) : list Param :=
  bb_rest b ++ opt_encoder_parameters (attr_encoder b)
            ++ opt_encoder_parameters (attr_transformer b).

(** [self.parameters()]: the submodules in the order they were assigned. *)
Definition parameters (m : CausalSent) : list Param :=
  backbone_parameters (backbone m) ++ riesz m ++ sentiment m.

(** [param.requires_grad = v] over a list of parameters. *)
Definition set_requires_grad (v : bool) (ps : list Param) : list Param :=
  map (fun p => mkParam (numel p) v) ps.

Definition set_encoder (v : bool) (e : Encoder) : Encoder :=
  mkEncoder (map (set_requires_grad v) (layer e))
            (set_requires_grad v (enc_rest e)).

(** The loop over [self.backbone.parameters()] that sets every flag. *)
Definition set_backbone (v : bool) (b : Backbone) : Backbone :=
  mkBackbone (bb_class b) (hidden_size b)
             (set_requires_grad v (bb_rest b))
             (option_map (set_encoder v) (attr_encoder b))
             (option_map (set_encoder v) (attr_transformer b)).

(** [sum(p.numel() for p in ps)] *)
Definition total_numel (ps : list Param) : N :=
  fold_right (fun p acc => (numel p + acc)%N) 0%N ps.

(** [sum(p.numel() for p in ps if p.requires_grad)] *)
Definition trainable_numel (ps : list Param) : N :=
  total_numel (filter requires_grad ps).

(** [(trainable_params / total_params) * 100] *)
Definition percentage (ps : list Param) : result Qc :=
  r <- truediv (Z.of_N (trainable_numel ps)) (Z.of_N (total_numel ps)) ;;
  Ok (r * Q2Qc (inject_Z 100))%Qc.

Definition percentage_trainable_params (m : CausalSent) : result Qc :=
  percentage (parameters m).

Definition percentage_trainable_backbone_params (m : CausalSent) : result Qc :=
  percentage (backbone_parameters (backbone m)).

(** A method that may mutate [self] and may raise: the model after the call
    is returned in both cases. *)
Definition method (A : Type) : Type := CausalSent -> result A * CausalSent.

(** [getattr(self.backbone, "encoder", getattr(self.backbone, "transformer", None))] *)
Definition get_encoder (b : Backbone) : option Encoder :=
  match attr_encoder b with
  | Some e => Some e
  | None => attr_transformer b
  end.

(** Writing through the object [get_encoder] returned: the attribute that
    was read is the one that changes. *)
Definition update_encoder (f : Encoder -> Encoder) (b : Backbone) : Backbone :=
  match attr_encoder b with
  | Some e =>
      mkBackbone (bb_class b) (hidden_size b) (bb_rest b)
                 (Some (f e)) (attr_transformer b)
  | None =>
      mkBackbone (bb_class b) (hidden_size b) (bb_rest b)
                 None (option_map f (attr_transformer b))
  end.

Definition with_backbone (m : CausalSent) (b : Backbone) : CausalSent :=
  mkCausalSent (sentiment_head_type m) (riesz_head_type m) b
               (backbone_hidden_size m) (riesz m) (sentiment m) (training m).

(** The [num_layers] argument, [Union[str, int]]. *)
Inductive NumLayers : Type :=
| NStr (s : string)
| NInt (n : Z).

(** The returned dict, keys ["trainable_model"] and ["trainable_backbone"]. *)
Record Report : Type := mkReport {
  trainable_model : Qc;
  trainable_backbone : Qc
}.

Definition attribute_error : exn :=
  AttributeError
    "The backbone model does not have an 'encoder' or 'transformer' attribute.".

(** Unfreezing the last [n] layers of the encoder's [layer] list. *)
Definition unfreeze_last (n : Z) (e : Encoder) : Encoder :=
  let layers := layer e in
  let keep := (List.length layers - Z.to_nat n)%nat in
  mkEncoder (firstn keep layers ++ map (set_requires_grad true) (last_n n layers))
            (enc_rest e).

Definition report (m : CausalSent) : result Report :=
  tm <- percentage_trainable_params m ;;
  tb <- percentage_trainable_backbone_params m ;;
  Ok (mkReport tm tb).

Definition unfreeze_backbone (num_layers : NumLayers) : method Report :=
  fun m =>
    match num_layers with
    | NInt n =>
        if (n <=? 0)%Z then (report m, m)
        else
          match get_encoder (backbone m) with
          | None => (Err attribute_error, m)
          | Some _ =>
              let m' := with_backbone m (update_encoder (unfreeze_last n) (backbone m)) in
              (percentage (backbone_parameters (backbone m')) ;;; report m', m')
          end
    | NStr s =>
        match get_encoder (backbone m) with
        | None => (Err attribute_error, m)
        | Some _ =>
            if String.eqb s "all" then
              let m' := with_backbone m (set_backbone true (backbone m)) in
              (percentage (backbone_parameters (backbone m')) ;;; report m', m')
            else
              (Err (AssertionError "num_layers must be 'all' or an integer."), m)
        end
    end.

Definition unfreeze_backbone_fraction (fraction : Qc) : method Report :=
  fun m =>
    let eps := Q2Qc (1 # 100) in
    match get_encoder (backbone m) with
    | None => (Err attribute_error, m)
    | Some encoder =>
        let total_backbone_layers := Z.of_nat (List.length (layer encoder)) in
        let num_layers_to_unfreeze :=
          if gt fraction (1 - eps)%Qc then NStr "all"
          else NInt (int_of_float
                       (Q2Qc (inject_Z total_backbone_layers) * fraction)%Qc) in
        unfreeze_backbone num_layers_to_unfreeze m
    end.

End Model.

Import Model.

(** ** Construction *)

Module Construct.

(** The values a call site passes. *)
Inductive value : Type :=
| VStr (s : string)
| VInt (n : Z).

Section Constructor.

(** [DistilBertModel.from_pretrained] and [LlamaModel.from_pretrained] of
    the transformers library: the loaded module for a model name. *)
Variable from_pretrained : BackboneClass -> string -> result Backbone.

(** [RieszHead] and [SentimentHead] of [causalign.modules.causal_sent_heads],
    called with the backbone hidden size, the head hidden size and the head
    type: the parameters of the module they build. *)
Variable RieszHead : Z -> Z -> string -> result (list Param).
Variable SentimentHead : Z -> Z -> string -> result (list Param).

(** The object [cls.from_pretrained] returns is an instance of [cls]. *)
Definition load (cls : BackboneClass) (name : string) : result Backbone :=
  b <- from_pretrained cls name ;;
  Ok (mkBackbone cls (hidden_size b) (bb_rest b)
                 (attr_encoder b) (attr_transformer b)).

(** [CausalSent.__init__], its arguments already bound. *)
Definition init (pretrained_model_name sentiment_head_type riesz_head_type : string)
  : result CausalSent :=
  backbone <-
    (if contains "bert" pretrained_model_name then
       load DistilBertModel pretrained_model_name
     else if contains "llama" pretrained_model_name then
       load LlamaModel pretrained_model_name
     else
       Err (ValueError "[ERROR] Unsupported model name.")) ;;
  let backbone_hidden_size := hidden_size backbone in
  let backbone := set_backbone false backbone in
  riesz <- RieszHead backbone_hidden_size
                     (floordiv backbone_hidden_size 2) riesz_head_type ;;
  let riesz := set_requires_grad true riesz in
  sentiment <- SentimentHead backbone_hidden_size
                             (floordiv backbone_hidden_size 2) sentiment_head_type ;;
  let sentiment := set_requires_grad true sentiment in
  Ok (mkCausalSent sentiment_head_type riesz_head_type backbone
                   backbone_hidden_size riesz sentiment true).

(** The parameters of [__init__] after [self]. *)
Definition init_signature : signature value :=
  [ ("pretrained_model_name", None);
    ("sentiment_head_type", Some (VStr "fcn"));
    ("riesz_head_type", Some (VStr "fcn")) ].

(** The call [CausalSent(k1=v1, ...)], all arguments passed by keyword. *)
Definition new (kwargs : list (string * value)) : result CausalSent :=
  args <- bind_keywords init_signature kwargs ;;
  match args with
  | [ (_, VStr name); (_, VStr sentiment_head_type); (_, VStr riesz_head_type) ] =>
      init name sentiment_head_type riesz_head_type
  | _ => Err (TypeError "argument is not a string")
  end.

End Constructor.

End Construct.

(** ** The forward pass *)

Module Forward.

Section Forward.

(** Token ids and attention masks, as the caller passes them (also [None]). *)
Variables Ids Mask : Type.

(** One position's embedding, and a head's output for a batch. *)
Variables Emb Out : Type.

(** [last_hidden_state]: for each example of the batch, one embedding per
    sequence position. *)
Definition Hidden : Type := list (list Emb).

(** What a head is called with. *)
Inductive HeadInput : Type :=
| Pooled (vectors : list Emb)        (* one vector per example *)
| Sequence (states : Hidden).        (* the full last_hidden_state *)

(** The backbone's forward call and the two heads' forward calls. *)
Variable backbone_forward : Ids -> Mask -> result Hidden.
Variable riesz_forward : HeadInput -> Out.
Variable sentiment_forward : HeadInput -> Out.

(** [Union[torch.Tensor, tuple]] *)
Inductive Output : Type :=
| Six (sentiment_real sentiment_treated sentiment_control
       riesz_real riesz_treated riesz_control : Out)
| One (sentiment_real : Out).

(** The calls made to the backbone so far, oldest first. *)
Definition Calls : Type := list (Ids * Mask).

(** A computation that may raise and records the backbone calls it makes. *)
Definition traced (A : Type) : Type := Calls -> result A * Calls.

Definition ret {A : Type} (a : A) : traced A := fun log => (Ok a, log).

Definition lift {A : Type} (r : result A) : traced A := fun log => (r, log).

Definition tbind {A B : Type} (c : traced A) (k : A -> traced B) : traced B :=
  fun log =>
    match c log with
    | (Ok a, log') => k a log'
    | (Err e, log') => (Err e, log')
    end.

(** [self.backbone(ids, attention_mask=mask)] *)
Definition call_backbone (ids : Ids) (mask : Mask) : traced Hidden :=
  fun log => (backbone_forward ids mask, log ++ [(ids, mask)]).

(** [h[:, i, :]] *)
Definition select (h : Hidden) (i : Z) : result (list Emb) :=
  mapM (fun row => index row i) h.

(** [t in ['fcn', 'linear']] *)
Definition in_fcn_linear (t : string) : bool :=
  String.eqb t "fcn" || String.eqb t "linear".

(** The [isinstance] dispatch that picks the pooled position. *)
Definition pooled (cls : BackboneClass) (h : Hidden) : result (list Emb) :=
  match cls with
  | DistilBertModel => select h 0
  | LlamaModel => select h (-1)
  | OtherModel => Err (ValueError "[ERROR] Unsupported backbone model.")
  end.

(** The three calls of one head in training mode; [embedding] holds the
    pooled vectors when they were bound. *)
Definition head_outputs (head : HeadInput -> Out) (head_type : string)
    (unsupported : exn)
    (embedding : option (list Emb * list Emb * list Emb))
    (real treated control : Hidden) : result (Out * Out * Out) :=
  if in_fcn_linear head_type then
    match embedding with
    | Some (e_real, e_treated, e_control) =>
        Ok (head (Pooled e_real), head (Pooled e_treated), head (Pooled e_control))
    | None => Err (RuntimeError "embedding_real is unbound")
    end
  else if String.eqb head_type "conv" then
    Ok (head (Sequence real), head (Sequence treated), head (Sequence control))
  else Err unsupported.

Definition forward (self : CausalSent)
    (input_ids_real input_ids_treated input_ids_control : Ids)
    (attention_mask_real attention_mask_treated attention_mask_control : Mask)
  : traced Output :=
  let cls := bb_class (backbone self) in
  if training self then
    tbind (call_backbone input_ids_real attention_mask_real) (fun real =>
    tbind (call_backbone input_ids_treated attention_mask_treated) (fun treated =>
    tbind (call_backbone input_ids_control attention_mask_control) (fun control =>
    lift (
      embedding <-
        (if in_fcn_linear (riesz_head_type self)
            || in_fcn_linear (sentiment_head_type self)
         then
           e_real <- pooled cls real ;;
           e_treated <- pooled cls treated ;;
           e_control <- pooled cls control ;;
           Ok (Some (e_real, e_treated, e_control))
         else Ok None) ;;
      rz <- head_outputs riesz_forward (riesz_head_type self)
              (ValueError "[ERROR] Unsupported Riesz head type.")
              embedding real treated control ;;
      st <- head_outputs sentiment_forward (sentiment_head_type self)
              (ValueError "[ERROR] Unsupported sentiment head type.")
              embedding real treated control ;;
      let '(riesz_real, riesz_treated, riesz_control) := rz in
      let '(sentiment_real, sentiment_treated, sentiment_control) := st in
      Ok (Six sentiment_real sentiment_treated sentiment_control
              riesz_real riesz_treated riesz_control)))))
  else
    tbind (call_backbone input_ids_real attention_mask_real) (fun real =>
    lift (
      input <-
        (if in_fcn_linear (sentiment_head_type self) then
           e_real <- pooled cls real ;;
           Ok (Pooled e_real)
         else if String.eqb (sentiment_head_type self) "conv" then
           Ok (Sequence real)
         else Err (ValueError "[ERROR] Unsupported sentiment head type.")) ;;
      Ok (One (sentiment_forward input)))).

End Forward.

End Forward.

(** ** Tensors of one dimension *)

Module Tensor.

Local Open Scope Qc_scope.

(** One entry per example of the batch. *)
Definition tensor : Type := list Qc.

(** A float scalar: [torch.mean] of an empty tensor is [nan]. *)
Inductive pyfloat : Type :=
| Fin (q : Qc)
| NaN.

Definition of_nat (n : nat) : Qc := Q2Qc (inject_Z (Z.of_nat n)).

Definition sum (t : tensor) : Qc := fold_right Qcplus 0 t.

(** [torch.mean(t)] *)
Definition mean (t : tensor) : pyfloat :=
  match t with
  | [] => NaN
  | _ :: _ => Fin (sum t / of_nat (length t))
  end.

(** [torch.cat(ts, dim=0)] *)
Definition cat (ts : list tensor) : tensor := concat ts.

Fixpoint map2 (f : Qc -> Qc -> Qc) (a b : tensor) : tensor :=
  match a, b with
  | x :: a', y :: b' => f x y :: map2 f a' b'
  | _, _ => []
  end.

(** An elementwise operation with broadcasting: equal sizes, or one side of
    size one; any other pair of sizes raises. *)
Definition elementwise (f : Qc -> Qc -> Qc) (a b : tensor) : result tensor :=
  if Nat.eqb (length a) (length b) then Ok (map2 f a b)
  else
    match a, b with
    | [x], _ => Ok (map (f x) b)
    | _, [y] => Ok (map (fun x => f x y) a)
    | _, _ => Err (RuntimeError "The size of tensor a must match the size of tensor b")
    end.

Definition mul : tensor -> tensor -> result tensor := elementwise Qcmult.
Definition sub : tensor -> tensor -> result tensor := elementwise Qcminus.
Definition add : tensor -> tensor -> result tensor := elementwise Qcplus.

(** [c * t] and [t - c] for a scalar [c], [t ** 2]. *)
Definition scale (c : Qc) (t : tensor) : tensor := map (Qcmult c) t.
Definition sub_scalar (t : tensor) (c : Qc) : tensor := map (fun x => x - c) t.
Definition square (t : tensor) : tensor := map (fun x => x * x) t.

(** [a * x] and [x + y] on scalars, [nan] absorbing. *)
Definition fmul (a : Qc) (x : pyfloat) : pyfloat :=
  match x with
  | Fin q => Fin (a * q)
  | NaN => NaN
  end.

Definition fadd (x y : pyfloat) : pyfloat :=
  match x, y with
  | Fin p, Fin q => Fin (p + q)
  | _, _ => NaN
  end.

End Tensor.

(** ** The training loop *)

Module Train.

Import Tensor Forward.
Local Open Scope Qc_scope.

(** The fields of [args] the loop reads. *)
Record Args : Type := mkArgs {
  lambda_bce : Qc;
  lambda_reg : Qc;
  lambda_riesz : Qc;
  epochs : nat;
  running_ate : bool;
  estimate_targets_for_ate : bool;
  pretrained_model_name : string
}.

(** The three lists the running estimate appends to. *)
Record Accumulators : Type := mkAccumulators {
  epoch_riesz_outputs : list tensor;
  epoch_sentiment_outputs : list tensor;
  epoch_targets : list tensor
}.

(** What the loop computes for one batch. *)
Record Step : Type := mkStep {
  step_epoch : nat;
  step_batch : nat;
  tau_hat : pyfloat;
  riesz_loss : pyfloat;
  reg_loss : pyfloat;
  bce : pyfloat;
  loss : pyfloat
}.

Section Loop.

Variables Ids Mask Emb : Type.

(** A collated batch of the data loader. *)
Record Batch : Type := mkBatch {
  input_ids_real : Ids;
  input_ids_treated : Ids;
  input_ids_control : Ids;
  attention_mask_real : Mask;
  attention_mask_treated : Mask;
  attention_mask_control : Mask;
  targets : tensor
}.

(** The values of the model's weights together with the optimizer's state. *)
Variable Weights : Type.

(** The numeric forward calls of the backbone and the heads at given weights. *)
Variable backbone_forward : Weights -> Ids -> Mask -> result (Hidden Emb).
Variable riesz_forward : Weights -> HeadInput Emb -> tensor.
Variable sentiment_forward : Weights -> HeadInput Emb -> tensor.

(** [torch.sigmoid] on one entry, and [torch.nn.BCEWithLogitsLoss()]. *)
Variable sigmoid : Qc -> Qc.
Variable bce_loss : tensor -> tensor -> result pyfloat.

Variable args : Args.

(** [optimizer.zero_grad(); loss.backward(); optimizer.step()]: the weights
    after the step, from the weights before it, the batch and the
    accumulators the loss was computed from. *)
Variable optimizer_step : Weights -> Batch -> option Accumulators -> Weights.

(** The local variables of [train_causal_sent] that outlive a batch.  The
    accumulators are [None] while the name [epoch_riesz_outputs] is not in
    [locals()]. *)
Record Locals : Type := mkLocals {
  weights : Weights;
  accumulators : option Accumulators;
  total_loss : pyfloat
}.

(** Lines 123-127: the lazy initialisation and the three appends. *)
Definition accumulate (acc : option Accumulators)
    (riesz_outputs_real sentiment_outputs_real batch_targets : tensor)
  : Accumulators :=
  let a := match acc with
           | None => mkAccumulators [] [] []
           | Some a => a
           end in
  mkAccumulators
    (epoch_riesz_outputs a ++ [riesz_outputs_real])
    (epoch_sentiment_outputs a ++ [map sigmoid sentiment_outputs_real])
    (epoch_targets a ++ [batch_targets]).

(** The accumulators after a run of batches, each batch given by its
    Riesz-real outputs, its sentiment-real outputs and its targets. *)
Definition accumulate_all (acc : option Accumulators)
    (outputs : list (tensor * tensor * tensor)) : option Accumulators :=
  fold_left (fun acc b => let '(r, s, t) := b in Some (accumulate acc r s t))
            outputs acc.

(** Lines 129-133.  The conditional expression binds weaker than [*]: its
    first branch is the whole product. *)
Definition running_tau_hat (a : Accumulators) : result pyfloat :=
  let all_riesz_outputs := cat (epoch_riesz_outputs a) in
  let all_sentiment_outputs := cat (epoch_sentiment_outputs a) in
  let all_targets := cat (epoch_targets a) in
  x <- (if estimate_targets_for_ate args
        then mul all_riesz_outputs all_sentiment_outputs
        else Ok all_targets) ;;
  Ok (mean x).

(** Line 135. *)
Definition batch_tau_hat
    (riesz_outputs_real sentiment_outputs_real batch_targets : tensor)
  : result pyfloat :=
  x <- mul riesz_outputs_real
           (if estimate_targets_for_ate args
            then map sigmoid sentiment_outputs_real
            else batch_targets) ;;
  Ok (mean x).

(** Line 138. *)
Definition compute_riesz_loss
    (riesz_outputs_real riesz_outputs_treated riesz_outputs_control : tensor)
  : result pyfloat :=
  d <- sub riesz_outputs_treated riesz_outputs_control ;;
  x <- add (scale (Q2Qc (inject_Z (-2))) d) (square riesz_outputs_real) ;;
  Ok (mean x).

(** Line 139; a [nan] estimate makes every entry, and the mean, [nan]. *)
Definition compute_reg_loss
    (sentiment_outputs_treated sentiment_outputs_control : tensor)
    (tau : pyfloat) : result pyfloat :=
  d <- sub sentiment_outputs_treated sentiment_outputs_control ;;
  match tau with
  | Fin t => Ok (mean (square (sub_scalar d t)))
  | NaN => Ok NaN
  end.

(** Line 141. *)
Definition compute_loss (bce reg_loss riesz_loss : pyfloat) : pyfloat :=
  fadd (fadd (fmul (lambda_bce args) bce) (fmul (lambda_reg args) reg_loss))
       (fmul (lambda_riesz args) riesz_loss).

(** Lines 122-135: the estimate, and the accumulators after it. *)
Definition compute_tau_hat (acc : option Accumulators)
    (riesz_outputs_real sentiment_outputs_real batch_targets : tensor)
  : result (option Accumulators * pyfloat) :=
  if running_ate args then
    let a := accumulate acc riesz_outputs_real sentiment_outputs_real
                        batch_targets in
    tau <- running_tau_hat a ;;
    Ok (Some a, tau)
  else
    tau <- batch_tau_hat riesz_outputs_real sentiment_outputs_real
                         batch_targets ;;
    Ok (acc, tau).

(** Lines 137-148, from the six outputs of the forward pass on. *)
Definition batch_step (epoch i : nat) (st : Locals) (batch : Batch)
    (sentiment_outputs_real sentiment_outputs_treated sentiment_outputs_control
     riesz_outputs_real riesz_outputs_treated riesz_outputs_control : tensor)
  : result (Locals * Step) :=
  r <- compute_tau_hat (accumulators st) riesz_outputs_real
                       sentiment_outputs_real (targets batch) ;;
  let '(acc', tau) := r in
  rl <- compute_riesz_loss riesz_outputs_real riesz_outputs_treated
                           riesz_outputs_control ;;
  gl <- compute_reg_loss sentiment_outputs_treated sentiment_outputs_control tau ;;
  b <- bce_loss sentiment_outputs_real (targets batch) ;;
  let l := compute_loss b gl rl in
  let w' := optimizer_step (weights st) batch acc' in
  Ok (mkLocals w' acc' (fadd (total_loss st) l), mkStep epoch i tau rl gl b l).

(** The body of the loop over the batches of an epoch, lines 100-148. *)
Definition train_batch (model : CausalSent) (epoch i : nat)
    (st : Locals) (batch : Batch) : result (Locals * Step) :=
  let w := weights st in
  out <- fst (forward (backbone_forward w) (riesz_forward w) (sentiment_forward w)
                model
                (input_ids_real batch) (input_ids_treated batch)
                (input_ids_control batch)
                (attention_mask_real batch) (attention_mask_treated batch)
                (attention_mask_control batch) []) ;;
  match out with
  | One _ => Err (ValueError "not enough values to unpack")
  | Six sentiment_outputs_real sentiment_outputs_treated sentiment_outputs_control
        riesz_outputs_real riesz_outputs_treated riesz_outputs_control =>
      batch_step epoch i st batch
        sentiment_outputs_real sentiment_outputs_treated sentiment_outputs_control
        riesz_outputs_real riesz_outputs_treated riesz_outputs_control
  end.

(** [for i, batch in enumerate(train_loader)]: the steps taken, and the
    exception that ended the loop if one did. *)
Fixpoint train_batches (model : CausalSent) (epoch i : nat) (st : Locals)
    (batches : list Batch) : Locals * list Step * option exn :=
  match batches with
  | [] => (st, [], None)
  | batch :: rest =>
      match train_batch model epoch i st batch with
      | Err e => (st, [], Some e)
      | Ok (st', step) =>
          let '(st'', steps, e) := train_batches model epoch (S i) st' rest in
          (st'', step :: steps, e)
      end
  end.

(** [model.train()] *)
Definition train_mode (model : CausalSent) : CausalSent :=
  mkCausalSent (sentiment_head_type model) (riesz_head_type model)
               (backbone model) (backbone_hidden_size model)
               (riesz model) (sentiment model) true.

(** The batches the shuffled loader yields in each epoch. *)
Variable train_loader : nat -> list Batch.

(** [for epoch in range(epochs)], from epoch [epoch] on, [n] epochs to go.
    Each epoch starts with [model.train()] and [total_loss = 0]; its
    validation pass reads the model and writes metrics only, and is left
    out. *)
Fixpoint train_epochs (model : CausalSent) (n epoch : nat) (st : Locals)
  : Locals * list Step * option exn :=
  match n with
  | O => (st, [], None)
  | S n' =>
      let st0 := mkLocals (weights st) (accumulators st) (Fin 0) in
      match train_batches (train_mode model) epoch 0 st0 (train_loader epoch) with
      | (st', steps, Some e) => (st', steps, Some e)
      | (st', steps, None) =>
          let '(st'', more, e) := train_epochs model n' (S epoch) st' in
          (st'', steps ++ more, e)
      end
  end.

(** The training loop on a constructed model, lines 94-197. *)
Definition training_loop (model : CausalSent) (w0 : Weights)
  : Locals * list Step * option exn :=
  train_epochs model (epochs args) 0 (mkLocals w0 None (Fin 0)).

End Loop.

End Train.

(** ** The entry point *)

Module Program.

Import Construct Train Tensor Forward.

Section Program.

Variables Ids Mask Emb Weights : Type.

(** The transformers library and the head classes, as in [Construct]. *)
Variable from_pretrained : BackboneClass -> string -> result Backbone.
Variable RieszHead : Z -> Z -> string -> result (list Param).
Variable SentimentHead : Z -> Z -> string -> result (list Param).

(** Lines 27-86: seeding, loading and wrapping the dataset, the tracker,
    the device and the loaders.  What reaches the loop is the list of
    batches of every epoch. *)
Variable prepare : Args -> result (nat -> list (Batch Ids Mask)).

(** The weights a freshly constructed model holds. *)
Variable initial_weights : CausalSent -> Weights.

Variable backbone_forward : Weights -> Ids -> Mask -> result (Hidden Emb).
Variable riesz_forward : Weights -> HeadInput Emb -> tensor.
Variable sentiment_forward : Weights -> HeadInput Emb -> tensor.
Variable sigmoid : Qc -> Qc.
Variable bce_loss : tensor -> tensor -> result pyfloat.
Variable optimizer_step :
  Weights -> Batch Ids Mask -> option Accumulators -> Weights.

(** [train_causal_sent(args)]: the batches it processed, and how it ended. *)
Definition train_causal_sent (args : Args) : list Step * result unit :=
  match prepare args with
  | Err e => ([], Err e)
  | Ok train_loader =>
      match new from_pretrained RieszHead SentimentHead
                [ ("bert_hidden_size", VInt 768);
                  ("pretrained_model_name", VStr (pretrained_model_name args)) ]
      with
      | Err e => ([], Err e)
      | Ok model =>
          let '(_, steps, e) :=
            training_loop backbone_forward riesz_forward sentiment_forward
                          sigmoid bce_loss args optimizer_step train_loader
                          model (initial_weights model) in
          (steps, match e with
                  | None => Ok tt
                  | Some e => Err e
                  end)
      end
  end.

End Program.

End Program.

(** ** Model states reachable from the constructor *)

Module Reach.

Import Construct.

Section Reach.

Variable from_pretrained : BackboneClass -> string -> result Backbone.
Variable RieszHead : Z -> Z -> string -> result (list Param).
Variable SentimentHead : Z -> Z -> string -> result (list Param).

(** A constructed model, after any number of unfreeze calls; a call that
    raises leaves the model in the state it had reached. *)
Inductive reachable : CausalSent -> Prop :=
| reach_init name sentiment_head_type riesz_head_type m :
    init from_pretrained RieszHead SentimentHead
         name sentiment_head_type riesz_head_type = Ok m ->
    reachable m
| reach_unfreeze num_layers m :
    reachable m ->
    reachable (snd (unfreeze_backbone num_layers m))
| reach_fraction fraction m :
    reachable m ->
    reachable (snd (unfreeze_backbone_fraction fraction m)).

(** Every checkpoint the library loads has at least one weight. *)
Definition loads_weights : Prop :=
  forall cls name b,
    from_pretrained cls name = Ok b ->
    total_numel (backbone_parameters b) <> 0%N.

End Reach.

End Reach.

(** ** The properties as the specification words them *)

Module Spec.

Import Tensor Forward.
Local Open Scope Qc_scope.

Section Pooling.

Variable Emb : Type.

Definition first_position (row : list Emb) : option Emb :=
  match row with
  | [] => None
  | x :: _ => Some x
  end.

Fixpoint last_position (row : list Emb) : option Emb :=
  match row with
  | [] => None
  | [x] => Some x
  | _ :: rest => last_position rest
  end.

Fixpoint every {A B : Type} (f : A -> option B) (l : list A) : option (list B) :=
  match l with
  | [] => Some []
  | a :: rest =>
      match f a, every f rest with
      | Some b, Some bs => Some (b :: bs)
      | _, _ => None
      end
  end.

(** The pooled vector of every example: the first family pools at the
    first position, the second at the last. *)
Definition pooled_vectors (cls : BackboneClass) (h : Hidden Emb)
  : option (list Emb) :=
  match cls with
  | DistilBertModel => every first_position h
  | LlamaModel => every last_position h
  | OtherModel => None
  end.

(** What a head of a given type consumes: one pooled vector per example for
    [fcn] and [linear], the full per-token sequence for [conv]. *)
Definition head_input (cls : BackboneClass) (head_type : string)
    (h : Hidden Emb) : option (HeadInput Emb) :=
  if String.eqb head_type "fcn" || String.eqb head_type "linear" then
    option_map (@Pooled Emb) (pooled_vectors cls h)
  else if String.eqb head_type "conv" then Some (Sequence h)
  else None.

End Pooling.

(** One accumulated example: its Riesz-real output, its sentiment-real
    logit and its ground-truth target. *)
Record Example : Type := mkExample {
  ex_riesz : Qc;
  ex_logit : Qc;
  ex_target : Qc
}.

(** The outcome of an example: estimated or true. *)
Definition outcome (sigmoid : Qc -> Qc) (estimate_targets : bool)
    (ex : Example) : Qc :=
  if estimate_targets then sigmoid (ex_logit ex) else ex_target ex.

(** The mean of a non-empty list of values. *)
Definition average (l : list Qc) : Qc := sum l / of_nat (length l).

(** The mean over the examples of Riesz output times outcome. *)
Definition tau_hat (sigmoid : Qc -> Qc) (estimate_targets : bool)
    (examples : list Example) : Qc :=
  average (map (fun ex => ex_riesz ex * outcome sigmoid estimate_targets ex)
               examples).

(** The examples of one batch, and of the batches seen so far. *)
Fixpoint examples_of (riesz_real sentiment_real batch_targets : tensor)
  : list Example :=
  match riesz_real, sentiment_real, batch_targets with
  | r :: rs, s :: ss, t :: ts => mkExample r s t :: examples_of rs ss ts
  | _, _, _ => []
  end.

Definition examples_of_batches (batches : list (tensor * tensor * tensor))
  : list Example :=
  flat_map (fun b => let '(r, s, t) := b in examples_of r s t) batches.

(** A batch with one Riesz output, one logit and one target per example. *)
Definition aligned (b : tensor * tensor * tensor) : Prop :=
  let '(r, s, t) := b in length s = length r /\ length t = length r.

(** The entry of a tensor for example [i]. *)
Definition at_ (t : tensor) (i : nat) : Qc := nth i t 0.

(** mean( -2 (riesz_treated - riesz_control) + riesz_real^2 ) over the
    examples of the batch. *)
Definition riesz_loss (riesz_real riesz_treated riesz_control : tensor)
  : Qc :=
  average (map (fun i => - (1 + 1) * (at_ riesz_treated i - at_ riesz_control i)
                         + at_ riesz_real i ^ 2)
               (seq 0 (length riesz_real))).

(** mean( (sentiment_treated - sentiment_control - tau_hat)^2 ) over the
    examples of the batch. *)
Definition reg_loss (sentiment_treated sentiment_control : tensor) (tau : Qc)
  : Qc :=
  average (map (fun i => (at_ sentiment_treated i - at_ sentiment_control i - tau) ^ 2)
               (seq 0 (length sentiment_treated))).

(** The weighted sum of the three terms. *)
Definition total_loss (lambda_bce lambda_reg lambda_riesz bce reg riesz : Qc)
  : Qc :=
  lambda_bce * bce + lambda_reg * reg + lambda_riesz * riesz.

End Spec.

(** ** Comparing model states and runs *)

Module Order.

(** The same parameter, with a flag that was set still set. *)
Definition no_less_trainable (p q : Param) : Prop :=
  numel q = numel p /\ (requires_grad p = true -> requires_grad q = true).

Definition all_trainable (ps : list Param) : Prop :=
  forall p, In p ps -> requires_grad p = true.

Definition hundred : Qc := Q2Qc (inject_Z 100).

(** A list of layers with every layer from position [a] on unfrozen. *)
Definition unfreeze_from (a : nat) (ls : list Layer) : list Layer :=
  firstn a ls ++ map (set_requires_grad true) (skipn a ls).

(** The target tensors the accumulators hold, oldest first; none while
    the accumulators do not exist. *)
Definition accumulated_targets (acc : option Train.Accumulators)
  : list Tensor.tensor :=
  match acc with
  | None => []
  | Some a => Train.epoch_targets a
  end.


End Order.

(** ** The validation pass *)

Module Validation.

Import Tensor Forward Train.

(** [model.eval()], as far as the wrapper's own [forward] reads it: the
    flag [self.training].  The call also puts the backbone and the heads
    in evaluation mode, where their dropout layers are inactive; that
    changes the numbers they return, not which of them [forward] calls nor
    on what.  The backbone and head functions handed to [forward] stand
    for those modules in the mode of the call, so a statement that relates
    a call in training mode to a call in evaluation mode takes one set of
    functions for each mode. *)
Definition eval_mode (model : CausalSent) : CausalSent :=
  mkCausalSent (sentiment_head_type model) (riesz_head_type model)
               (backbone model) (backbone_hidden_size model)
               (riesz model) (sentiment model) false.

Section Validation.

Variables Ids Mask Emb : Type.

(** The backbone as [forward] calls it here: the validation loop passes
    [None] for the treated and control ids and masks. *)
Variable backbone_forward :
  option Ids -> option Mask -> result (Hidden Emb).
Variable riesz_forward : HeadInput Emb -> tensor.
Variable sentiment_forward : HeadInput Emb -> tensor.
Variable sigmoid : Qc -> Qc.

(** [(torch.sigmoid(out) > 0.5).astype(int)] *)
Definition predictions (sentiment_output_real : tensor) : list Z :=
  map (fun x => if gt (sigmoid x) (Q2Qc (1 # 2)) then 1%Z else 0%Z)
      sentiment_output_real.

(** The body of the loop over [val_loader], lines 179-188: the targets and
    the predictions of one batch. *)
Definition validate_batch (model : CausalSent) (batch : Batch Ids Mask)
  : traced (option Ids) (option Mask) (tensor * list Z) :=
  tbind (forward backbone_forward riesz_forward sentiment_forward model
           (Some (input_ids_real batch)) None None
           (Some (attention_mask_real batch)) None None)
        (fun out =>
           match out with
           | One sentiment_output_real =>
               ret (targets batch, predictions sentiment_output_real)
           | Six _ _ _ _ _ _ =>
               lift (Err (TypeError "sigmoid(): argument must be Tensor, not tuple"))
           end).

(** [val_targets] and [val_predictions] after the loop. *)
Fixpoint validate_batches (model : CausalSent) (batches : list (Batch Ids Mask))
  : traced (option Ids) (option Mask) (tensor * list Z) :=
  match batches with
  | [] => ret ([], [])
  | batch :: rest =>
      tbind (validate_batch model batch) (fun tp =>
      tbind (validate_batches model rest) (fun tps =>
      ret (fst tp ++ fst tps, snd tp ++ snd tps)))
  end.

(** Lines 175-188, from [model.eval()] on, with the backbone calls made. *)
Definition validation (model : CausalSent) (val_loader : list (Batch Ids Mask))
  : result (tensor * list Z) * Calls (option Ids) (option Mask) :=
  validate_batches (eval_mode model) val_loader [].

(** The backbone call one validation batch asks for. *)
Definition real_call (batch : Batch Ids Mask) : option Ids * option Mask :=
  (Some (input_ids_real batch), Some (attention_mask_real batch)).

End Validation.

End Validation.

(** ** Small concrete models *)

Module Examples.

Definition frozen (n : N) : Param := mkParam n false.

Definition block : Layer := [frozen 2; frozen 1].

(** Shaped like DistilBERT: embeddings, then six blocks behind the
    attribute [transformer]. *)
Definition distilbert : Backbone :=
  mkBackbone DistilBertModel 4 [frozen 8] None
             (Some (mkEncoder (repeat block 6) [])).

(** Shaped like LLaMA: embeddings, blocks and norm, none of them behind an
    attribute called [encoder] or [transformer]. *)
Definition llama : Backbone :=
  mkBackbone LlamaModel 4 [frozen 8; frozen 3; frozen 3; frozen 1] None None.

Definition model_of (b : Backbone) : CausalSent :=
  mkCausalSent "fcn" "fcn" b 4 [mkParam 5 true] [mkParam 5 true] true.

(** A library that knows one checkpoint per family. *)
Definition from_pretrained (cls : BackboneClass) (name : string)
  : result Backbone :=
  match cls with
  | DistilBertModel => Ok distilbert
  | _ => Ok llama
  end.

(** A head with one weight tensor, whatever its sizes and type. *)
Definition one_tensor_head (backbone_hidden_size hidden_size : Z)
    (head_type : string) : result (list Param) :=
  Ok [mkParam 5 false].


(** A sentiment head of type [fcn] next to a Riesz head of type [conv]. *)
Definition mixed_heads : CausalSent :=
  mkCausalSent "fcn" "conv" distilbert 4 [mkParam 5 true] [mkParam 5 true] true.

Definition in_eval_mode (m : CausalSent) : CausalSent :=
  mkCausalSent (sentiment_head_type m) (riesz_head_type m) (backbone m)
               (backbone_hidden_size m) (riesz m) (sentiment m) false.

(** A backbone that embeds a one-example batch of three positions, and
    heads that hand back what they were called with. *)
Definition three_positions (ids : nat) (mask : unit)
  : result (Forward.Hidden nat) :=
  Ok [[ids; S ids; S (S ids)]].

Definition echo (input : Forward.HeadInput nat) : Forward.HeadInput nat := input.

(** Stand-ins for the numeric collaborators of the loop: a backbone that
    embeds a one-example batch as its id, heads that read the value off the
    embedding, a flat sigmoid, a classification loss of zero and an
    optimizer that leaves the weights alone. *)
Definition emit (w : unit) (ids : Qc) (mask : unit)
  : result (Forward.Hidden Qc) :=
  Ok [[ids]].

Definition read (w : unit) (input : Forward.HeadInput Qc) : Tensor.tensor :=
  match input with
  | Forward.Pooled v => v
  | Forward.Sequence h => concat h
  end.

Definition half : Qc := Q2Qc (1 # 2).

Definition flat_sigmoid (x : Qc) : Qc := half.

Definition no_bce (logits targets : Tensor.tensor) : result Tensor.pyfloat :=
  Ok (Tensor.Fin (Q2Qc 0)).

Definition keep (w : unit) (batch : Train.Batch Qc unit)
    (acc : option Train.Accumulators) : unit := w.

(** A batch of one example whose three inputs embed as [x]. *)
Definition one_example (x target : Qc) : Train.Batch Qc unit :=
  Train.mkBatch x x x tt tt tt [target].

(** Running average over the true targets, one epoch of one batch. *)
Definition running_on_targets : Train.Args :=
  Train.mkArgs (Q2Qc 1) (Q2Qc 1) (Q2Qc 1) 1 true false
               "distilbert-base-uncased".

Definition one_batch (epoch : nat) : list (Train.Batch Qc unit) :=
  [one_example (Q2Qc 2) (Q2Qc 1)].

(** Running average over the estimated outcomes, two epochs of one batch
    each. *)
Definition running_two_epochs : Train.Args :=
  Train.mkArgs (Q2Qc 1) (Q2Qc 1) (Q2Qc 1) 2 true true
               "distilbert-base-uncased".

(** Per-batch average over the estimated outcomes. *)
Definition per_batch : Train.Args :=
  Train.mkArgs (Q2Qc 1) (Q2Qc 2) (Q2Qc 3) 1 false true
               "distilbert-base-uncased".

Definition run (args : Train.Args)
    (train_loader : nat -> list (Train.Batch Qc unit))
  : Train.Locals unit * list Train.Step * option exn :=
  Train.training_loop emit read read flat_sigmoid no_bce args keep
                      train_loader (model_of distilbert) tt.

(** A model all of whose backbone parameters are empty tensors. *)
Definition weightless : CausalSent :=
  model_of (mkBackbone DistilBertModel 0 [frozen 0] None
                       (Some (mkEncoder [[frozen 0]] []))).

(** A backbone for the validation pass: it embeds a one-example batch as
    its id and raises on [None]. *)
Definition emit_some (ids : option Qc) (mask : option unit)
  : result (Forward.Hidden Qc) :=
  match ids, mask with
  | Some x, Some _ => Ok [[x]]
  | _, _ => Err (TypeError "NoneType")
  end.

Definition two_batches : list (Train.Batch Qc unit) :=
  [one_example (Q2Qc 2) (Q2Qc 1); one_example (Q2Qc 4) (Q2Qc 0)].

(** The estimates of a run, batch by batch. *)
Definition estimates (r : Train.Locals unit * list Train.Step * option exn)
  : list Tensor.pyfloat :=
  map Train.tau_hat (snd (fst r)).

(** Batches of several examples: a backbone that embeds each example of
    the batch as its id, one position per sequence, and a sentiment head
    whose logits are all zero, where the sigmoid is one half. *)
Definition emit_rows (w : unit) (ids : list Qc) (mask : unit)
  : result (Forward.Hidden Qc) :=
  Ok (map (fun x => [x]) ids).

Definition zero_logits (w : unit) (input : Forward.HeadInput Qc)
  : Tensor.tensor :=
  map (fun _ => Q2Qc 0) (read w input).

Definition keep_rows (w : unit) (batch : Train.Batch (list Qc) unit)
    (acc : option Train.Accumulators) : unit := w.

(** A batch of two examples whose inputs embed as [x] and [y], with
    targets [t] and [u]. *)
Definition two_examples (x y t u : Qc) : Train.Batch (list Qc) unit :=
  Train.mkBatch [x; y] [x; y] [x; y] tt tt tt [t; u].

Definition two_examples_per_epoch (epoch : nat)
  : list (Train.Batch (list Qc) unit) :=
  match epoch with
  | O => [two_examples (Q2Qc 2) (Q2Qc 4) (Q2Qc 1) (Q2Qc 0)]
  | S _ => [two_examples (Q2Qc 6) (Q2Qc 8) (Q2Qc 0) (Q2Qc 1)]
  end.

Definition run_rows
    (bce_loss : Tensor.tensor -> Tensor.tensor -> result Tensor.pyfloat)
    (args : Train.Args)
    (train_loader : nat -> list (Train.Batch (list Qc) unit))
  : Train.Locals unit * list Train.Step * option exn :=
  Train.training_loop emit_rows read zero_logits flat_sigmoid bce_loss args
                      keep_rows train_loader (model_of distilbert) tt.

(** The outputs of those two batches, as the loop accumulates them. *)
Definition first_outputs : Tensor.tensor * Tensor.tensor * Tensor.tensor :=
  ([Q2Qc 2; Q2Qc 4], [Q2Qc 0; Q2Qc 0], [Q2Qc 1; Q2Qc 0]).

Definition second_outputs : Tensor.tensor * Tensor.tensor * Tensor.tensor :=
  ([Q2Qc 6; Q2Qc 8], [Q2Qc 0; Q2Qc 0], [Q2Qc 0; Q2Qc 1]).

End Examples.

(* ================================================================== *)
(** * Part II: properties *)
(* ================================================================== *)

Import Construct Reach.

Unset Implicit Arguments.

(** ** Arithmetic of percentages *)

Section Percentages.

Local Open Scope Qc_scope.

Lemma Qc_of_Z_le (a b : Z) :
  (a <= b)%Z -> Q2Qc (inject_Z a) <= Q2Qc (inject_Z b).
Proof.
  intros H. unfold Qcle. cbn [this Q2Qc]. rewrite !Qred_correct.
  now rewrite <- Zle_Qle.
Qed.

Lemma Qc_of_Z_pos (b : Z) : (0 < b)%Z -> 0 < Q2Qc (inject_Z b).
Proof.
  intros H. unfold Qclt. cbn [this Q2Qc]. rewrite !Qred_correct.
  change 0%Q with (inject_Z 0). now rewrite <- Zlt_Qlt.
Qed.

Lemma Qcinv_nonneg (x : Qc) : 0 < x -> 0 <= / x.
Proof.
  unfold Qclt, Qcle, Qcinv. intros H. cbn [this Q2Qc].
  rewrite !Qred_correct.
  apply Qlt_le_weak, Qinv_lt_0_compat, H.
Qed.

Lemma ratio_bounds (a b : Z) :
  (0 <= a <= b)%Z -> (0 < b)%Z ->
  let r := Q2Qc (inject_Z a) / Q2Qc (inject_Z b) * Q2Qc (inject_Z 100) in
  0 <= r /\ r <= Q2Qc (inject_Z 100).
Proof.
  intros [Ha Hab] Hb r. subst r.
  set (A := Q2Qc (inject_Z a)). set (B := Q2Qc (inject_Z b)).
  set (C := Q2Qc (inject_Z 100)).
  assert (HA : 0 <= A) by (apply (Qc_of_Z_le 0 a Ha)).
  assert (HAB : A <= B) by (apply Qc_of_Z_le, Hab).
  assert (HB : 0 < B) by (apply Qc_of_Z_pos, Hb).
  assert (HC : 0 <= C) by (apply (Qc_of_Z_le 0 100); lia).
  assert (Hinv : 0 <= / B) by (apply Qcinv_nonneg, HB).
  assert (Hne : B <> 0) by (intros E; rewrite E in HB; now apply (Qclt_not_eq 0 0)).
  assert (Hr0 : 0 <= A / B).
  { unfold Qcdiv. rewrite <- (Qcmult_0_l (/ B)).
    now apply Qcmult_le_compat_r. }
  assert (Hr1 : A / B <= 1).
  { unfold Qcdiv. rewrite <- (Qcmult_inv_r B Hne).
    now apply Qcmult_le_compat_r. }
  split.
  - rewrite <- (Qcmult_0_l C). now apply Qcmult_le_compat_r.
  - rewrite <- (Qcmult_1_l C) at 2. now apply Qcmult_le_compat_r.
Qed.

End Percentages.

(** ** Counting parameters *)

Section Counting.

Lemma total_numel_app (a b : list Param) :
  total_numel (a ++ b) = (total_numel a + total_numel b)%N.
Proof.
  induction a as [|p a IH]; simpl; [reflexivity|]. rewrite IH. lia.
Qed.

Lemma trainable_numel_le (ps : list Param) :
  (trainable_numel ps <= total_numel ps)%N.
Proof.
  unfold trainable_numel.
  induction ps as [|p ps IH]; simpl; [lia|].
  destruct (requires_grad p); simpl; lia.
Qed.

Lemma total_numel_set (v : bool) (ps : list Param) :
  total_numel (set_requires_grad v ps) = total_numel ps.
Proof.
  induction ps as [|p ps IH]; simpl; [reflexivity|]. now rewrite IH.
Qed.

Lemma total_numel_concat_set (v : bool) (ls : list Layer) :
  total_numel (concat (map (set_requires_grad v) ls)) = total_numel (concat ls).
Proof.
  induction ls as [|l ls IH]; simpl; [reflexivity|].
  now rewrite !total_numel_app, total_numel_set, IH.
Qed.

Lemma total_numel_set_encoder (v : bool) (e : Encoder) :
  total_numel (encoder_parameters (set_encoder v e))
  = total_numel (encoder_parameters e).
Proof.
  unfold encoder_parameters, set_encoder. simpl.
  now rewrite !total_numel_app, total_numel_concat_set, total_numel_set.
Qed.

Lemma total_numel_unfreeze_last (n : Z) (e : Encoder) :
  total_numel (encoder_parameters (unfreeze_last n e))
  = total_numel (encoder_parameters e).
Proof.
  unfold encoder_parameters, unfreeze_last, last_n. simpl.
  rewrite !total_numel_app. f_equal.
  rewrite concat_app, total_numel_app, total_numel_concat_set.
  rewrite <- total_numel_app, <- concat_app.
  now rewrite firstn_skipn.
Qed.

Lemma total_numel_set_backbone (v : bool) (b : Backbone) :
  total_numel (backbone_parameters (set_backbone v b))
  = total_numel (backbone_parameters b).
Proof.
  unfold backbone_parameters, set_backbone. simpl.
  rewrite !total_numel_app, total_numel_set.
  destruct (attr_encoder b), (attr_transformer b); simpl;
    now rewrite ?total_numel_set_encoder.
Qed.

Lemma total_numel_update_encoder (n : Z) (b : Backbone) :
  total_numel (backbone_parameters (update_encoder (unfreeze_last n) b))
  = total_numel (backbone_parameters b).
Proof.
  unfold backbone_parameters, update_encoder.
  destruct (attr_encoder b) as [e|] eqn:E; simpl.
  - now rewrite !total_numel_app, total_numel_unfreeze_last.
  - rewrite !total_numel_app. destruct (attr_transformer b); simpl;
      now rewrite ?total_numel_unfreeze_last.
Qed.

(** The percentage of a non-empty parameter list is a value between 0 and
    100. *)
Lemma percentage_bounds (ps : list Param) :
  total_numel ps <> 0%N ->
  exists v, percentage ps = Ok v
            /\ (0 <= v)%Qc /\ (v <= Q2Qc (inject_Z 100))%Qc.
Proof.
  intros H. unfold percentage, truediv.
  destruct (Z.eqb_spec (Z.of_N (total_numel ps)) 0) as [E|E]; [lia|].
  simpl. eexists. split; [reflexivity|].
  apply ratio_bounds; pose proof (trainable_numel_le ps); lia.
Qed.

(** With nothing trainable the percentage is 0. *)
Lemma percentage_frozen (ps : list Param) :
  total_numel ps <> 0%N ->
  trainable_numel ps = 0%N ->
  percentage ps = Ok (Q2Qc 0).
Proof.
  intros H H0. unfold percentage, truediv. rewrite H0.
  destruct (Z.eqb_spec (Z.of_N (total_numel ps)) 0) as [E|E]; [lia|].
  cbn [bind]. f_equal.
Qed.

(** Flags after a loop that sets them. *)
Lemma In_set_requires_grad v ps p :
  In p (set_requires_grad v ps) -> requires_grad p = v.
Proof.
  unfold set_requires_grad. rewrite in_map_iff.
  now intros (q & <- & _).
Qed.

Lemma In_set_encoder v e p :
  In p (encoder_parameters (set_encoder v e)) -> requires_grad p = v.
Proof.
  unfold encoder_parameters, set_encoder. cbn [layer enc_rest].
  rewrite in_app_iff, in_concat.
  intros [(l & Hl & Hp)|Hp].
  - rewrite in_map_iff in Hl. destruct Hl as (l0 & <- & _).
    exact (In_set_requires_grad _ _ _ Hp).
  - exact (In_set_requires_grad _ _ _ Hp).
Qed.

Lemma In_set_backbone v b p :
  In p (backbone_parameters (set_backbone v b)) -> requires_grad p = v.
Proof.
  unfold backbone_parameters, set_backbone.
  cbn [bb_rest attr_encoder attr_transformer].
  rewrite !in_app_iff. intros [Hp|[Hp|Hp]].
  - exact (In_set_requires_grad _ _ _ Hp).
  - destruct (attr_encoder b); cbn in Hp; [|contradiction].
    exact (In_set_encoder _ _ _ Hp).
  - destruct (attr_transformer b); cbn in Hp; [|contradiction].
    exact (In_set_encoder _ _ _ Hp).
Qed.

Lemma trainable_numel_frozen ps :
  (forall p, In p ps -> requires_grad p = false) ->
  trainable_numel ps = 0%N.
Proof.
  unfold trainable_numel.
  induction ps as [|p ps IH]; intros H; [reflexivity|].
  cbn [filter]. rewrite (H p (or_introl eq_refl)).
  apply IH. intros q Hq. apply H. now right.
Qed.

End Counting.

(** ** Trainable-parameter percentages *)

Section Reachable.

Variable from_pretrained : BackboneClass -> string -> result Backbone.
Variable RieszHead : Z -> Z -> string -> result (list Param).
Variable SentimentHead : Z -> Z -> string -> result (list Param).

#[local] Abbreviation reachable :=
  (reachable from_pretrained RieszHead SentimentHead).
#[local] Abbreviation init := (init from_pretrained RieszHead SentimentHead).

(** What the constructor returns: the loaded backbone with every flag
    cleared, and two heads with every flag set. *)
Lemma init_inv name st rt m :
  init name st rt = Ok m ->
  exists cls b rz sn,
    from_pretrained cls name = Ok b
    /\ backbone m
       = set_backbone false
           (mkBackbone cls (hidden_size b) (bb_rest b)
                       (attr_encoder b) (attr_transformer b))
    /\ riesz m = set_requires_grad true rz
    /\ sentiment m = set_requires_grad true sn.
Proof.
  unfold Construct.init, load. intros H.
  assert (Hgen : forall cls,
    (b <- (b <- from_pretrained cls name ;;
           Ok (mkBackbone cls (hidden_size b) (bb_rest b)
                          (attr_encoder b) (attr_transformer b))) ;;
     riesz <- RieszHead (hidden_size b) (floordiv (hidden_size b) 2) rt ;;
     sentiment <- SentimentHead (hidden_size b) (floordiv (hidden_size b) 2) st ;;
     Ok (mkCausalSent st rt (set_backbone false b) (hidden_size b)
                      (set_requires_grad true riesz)
                      (set_requires_grad true sentiment) true)) = Ok m ->
    exists cls b rz sn,
      from_pretrained cls name = Ok b
      /\ backbone m
         = set_backbone false
             (mkBackbone cls (hidden_size b) (bb_rest b)
                         (attr_encoder b) (attr_transformer b))
      /\ riesz m = set_requires_grad true rz
      /\ sentiment m = set_requires_grad true sn).
  { intros cls H'.
    destruct (from_pretrained cls name) as [b|] eqn:E; [|discriminate].
    cbn [bind hidden_size] in H'.
    destruct (RieszHead _ _ rt) as [rz|]; [|discriminate]. cbn [bind] in H'.
    destruct (SentimentHead _ _ st) as [sn|]; [|discriminate]. cbn [bind] in H'.
    injection H' as <-. exists cls, b, rz, sn. repeat split; assumption. }
  destruct (contains "bert" name); [exact (Hgen _ H)|].
  destruct (contains "llama" name); [exact (Hgen _ H)|discriminate].
Qed.

(** The constructor leaves the backbone with the weights it loaded. *)
Lemma init_backbone_numel name st rt m :
  init name st rt = Ok m ->
  exists cls b,
    from_pretrained cls name = Ok b
    /\ total_numel (backbone_parameters (backbone m))
       = total_numel (backbone_parameters b).
Proof.
  intros H. destruct (init_inv _ _ _ _ H) as (cls & b & rz & sn & Hb & -> & _).
  exists cls, b. split; [assumption|].
  now rewrite total_numel_set_backbone.
Qed.

(** No unfreeze call changes how many weights the backbone has. *)
Lemma unfreeze_backbone_numel nl m :
  total_numel (backbone_parameters (backbone (snd (unfreeze_backbone nl m))))
  = total_numel (backbone_parameters (backbone m)).
Proof.
  unfold unfreeze_backbone.
  destruct nl as [s|n].
  - destruct (get_encoder (backbone m)); [|reflexivity].
    destruct (String.eqb s "all"); [|reflexivity].
    cbn [snd with_backbone backbone]. apply total_numel_set_backbone.
  - destruct (n <=? 0)%Z; [reflexivity|].
    destruct (get_encoder (backbone m)); [|reflexivity].
    cbn [snd with_backbone backbone]. apply total_numel_update_encoder.
Qed.

Lemma unfreeze_backbone_fraction_numel f m :
  total_numel (backbone_parameters
                 (backbone (snd (unfreeze_backbone_fraction f m))))
  = total_numel (backbone_parameters (backbone m)).
Proof.
  unfold unfreeze_backbone_fraction.
  destruct (get_encoder (backbone m)); [|reflexivity].
  apply unfreeze_backbone_numel.
Qed.

Lemma reachable_has_weights m :
  loads_weights from_pretrained ->
  reachable m ->
  total_numel (backbone_parameters (backbone m)) <> 0%N.
Proof.
  intros Hload Hr. induction Hr as [name st rt m Hinit|nl m _ IH|f m _ IH].
  - destruct (init_backbone_numel _ _ _ _ Hinit) as (cls & b & Hb & ->).
    exact (Hload _ _ _ Hb).
  - now rewrite unfreeze_backbone_numel.
  - now rewrite unfreeze_backbone_fraction_numel.
Qed.

(** C8: in every model state reached from the constructor by unfreeze
    calls, [percentage_trainable_params] and
    [percentage_trainable_backbone_params] return a value between 0 and
    100, the loaded backbone having at least one weight. *)
Theorem percentages_in_range m :
  loads_weights from_pretrained ->
  reachable m ->
  (exists v, percentage_trainable_params m = Ok v
             /\ (0 <= v)%Qc /\ (v <= Q2Qc (inject_Z 100))%Qc)
  /\ (exists v, percentage_trainable_backbone_params m = Ok v
                /\ (0 <= v)%Qc /\ (v <= Q2Qc (inject_Z 100))%Qc).
Proof.
  intros Hload Hr.
  pose proof (reachable_has_weights m Hload Hr) as Hb.
  split.
  - apply percentage_bounds. unfold parameters.
    rewrite total_numel_app. lia.
  - apply percentage_bounds, Hb.
Qed.

(** C9: [unfreeze_backbone] with an integer that is zero or negative
    changes no parameter; the constructor leaves every backbone parameter
    frozen and every head parameter trainable, so right after it the
    backbone percentage is 0 and still 0 in what such a call returns. *)
Theorem unfreeze_backbone_nonpositive n :
  (n <= 0)%Z ->
  (forall m, snd (unfreeze_backbone (NInt n) m) = m)
  /\ (forall name st rt m,
        loads_weights from_pretrained ->
        init name st rt = Ok m ->
        (forall p, In p (backbone_parameters (backbone m)) ->
                   requires_grad p = false)
        /\ (forall p, In p (riesz m ++ sentiment m) -> requires_grad p = true)
        /\ percentage_trainable_backbone_params m = Ok (Q2Qc 0)
        /\ exists r, fst (unfreeze_backbone (NInt n) m) = Ok r
                     /\ trainable_backbone r = Q2Qc 0).
Proof.
  intros Hn. split.
  - intros m. unfold unfreeze_backbone.
    destruct (Z.leb_spec n 0); [reflexivity|lia].
  - intros name st rt m Hload Hinit.
    assert (Hw : total_numel (backbone_parameters (backbone m)) <> 0%N).
    { apply reachable_has_weights; [exact Hload|].
      eapply reach_init, Hinit. }
    destruct (init_inv _ _ _ _ Hinit) as (cls & b & rz & sn & Hb & HB & HR & HS).
    assert (Hfrozen : forall p, In p (backbone_parameters (backbone m)) ->
                                requires_grad p = false).
    { intros p. rewrite HB. apply In_set_backbone. }
    assert (Hpb : percentage_trainable_backbone_params m = Ok (Q2Qc 0)).
    { apply percentage_frozen; [exact Hw|].
      now apply trainable_numel_frozen. }
    repeat split.
    + exact Hfrozen.
    + intros p. rewrite HR, HS, in_app_iff.
      intros [Hp|Hp]; exact (In_set_requires_grad _ _ _ Hp).
    + exact Hpb.
    + unfold unfreeze_backbone.
      destruct (Z.leb_spec n 0); [|lia].
      cbn [fst]. unfold report. rewrite Hpb.
      unfold percentage_trainable_params.
      destruct (percentage_bounds (parameters m)) as (v & -> & _).
      { unfold parameters. rewrite total_numel_app. lia. }
      cbn [bind]. eexists. split; reflexivity.
Qed.

End Reachable.

(** ** Unfreezing *)

Section Unfreezing.

Local Open Scope Qc_scope.


Lemma gt_false (x y : Qc) : gt x y = false <-> x <= y.
Proof.
  unfold gt, Qcle. rewrite negb_false_iff. apply Qle_bool_iff.
Qed.

Lemma threshold_value : 1 - Q2Qc (1 # 100) = Q2Qc (99 # 100).
Proof. apply Qc_is_canon. reflexivity. Qed.


(** C7, as the code has it: on a backbone with neither attribute,
    [unfreeze_backbone_fraction] raises for every fraction and
    [unfreeze_backbone] raises for every string and every positive
    integer, the model untouched; for an integer that is zero or negative
    [unfreeze_backbone] skips the lookup and goes on to the report. *)
Theorem unfreeze_without_encoder (m : CausalSent) :
  attr_encoder (backbone m) = None ->
  attr_transformer (backbone m) = None ->
  (forall f, unfreeze_backbone_fraction f m = (Err attribute_error, m))
  /\ (forall s, unfreeze_backbone (NStr s) m = (Err attribute_error, m))
  /\ (forall n, (0 < n)%Z ->
                unfreeze_backbone (NInt n) m = (Err attribute_error, m))
  /\ (forall n, (n <= 0)%Z ->
                unfreeze_backbone (NInt n) m = (report m, m)).
Proof.
  intros He Ht.
  assert (E : get_encoder (backbone m) = None)
    by (unfold get_encoder; now rewrite He, Ht).
  unfold unfreeze_backbone_fraction, unfreeze_backbone. rewrite E.
  repeat split; intros n H.
  - destruct (Z.leb_spec n 0); [lia|reflexivity].
  - destruct (Z.leb_spec n 0); [reflexivity|lia].
Qed.

End Unfreezing.

(** C7, refuted as stated: a backbone shaped like LLaMA has neither
    attribute, and [unfreeze_backbone(0)] on it returns its report. *)
Lemma unfreeze_backbone_zero_without_encoder :
  attr_encoder Examples.llama = None
  /\ attr_transformer Examples.llama = None
  /\ is_ok (fst (unfreeze_backbone (NInt 0) (Examples.model_of Examples.llama)))
     = true.
Proof. repeat split. Qed.


(** ** The forward pass *)

Section ForwardProps.

Import Forward.

Variables Ids Mask Emb Out : Type.
Variable backbone_forward : Ids -> Mask -> result (Hidden Emb).
Variable riesz_forward : HeadInput Emb -> Out.
Variable sentiment_forward : HeadInput Emb -> Out.

#[local] Abbreviation forward :=
  (forward backbone_forward riesz_forward sentiment_forward).

(** Python's index 0 is the first position, index -1 the last. *)
Lemma index_first (row : list Emb) (x : Emb) :
  Spec.first_position row = Some x -> index row 0 = Ok x.
Proof.
  destruct row as [|y row]; [discriminate|].
  intros [= ->]. reflexivity.
Qed.

Lemma last_position_nth (row : list Emb) :
  Spec.last_position row = nth_error row (length row - 1).
Proof.
  induction row as [|x rest IH]; [reflexivity|].
  destruct rest as [|y r]; [reflexivity|].
  change (Spec.last_position (x :: y :: r)) with (Spec.last_position (y :: r)).
  rewrite IH. cbn [length]. now rewrite !Nat.sub_succ, !Nat.sub_0_r.
Qed.

Lemma index_last (row : list Emb) (x : Emb) :
  Spec.last_position row = Some x -> index row (-1) = Ok x.
Proof.
  intros H. rewrite last_position_nth in H.
  destruct row as [|y row]; [discriminate|].
  unfold index. cbn [Z.ltb Z.compare].
  set (len := Z.of_nat (length (y :: row))).
  assert (Hlen : (len = Z.of_nat (length row) + 1)%Z)
    by (subst len; cbn [length]; lia).
  destruct (Z.ltb_spec (len + -1) 0); [lia|].
  destruct (Z.leb_spec len (len + -1)); [lia|].
  cbn [orb].
  replace (Z.to_nat (len + -1)) with (length (y :: row) - 1)%nat
    by (cbn [length]; lia).
  now rewrite H.
Qed.

Lemma select_every (f : list Emb -> option Emb) (i : Z) :
  (forall row x, f row = Some x -> index row i = Ok x) ->
  forall (h : Hidden Emb) (v : list Emb),
    Spec.every f h = Some v -> select h i = Ok v.
Proof.
  intros Hf. unfold select.
  induction h as [|row h IH]; intros v H; cbn [Spec.every] in H.
  - now injection H as <-.
  - destruct (f row) as [x|] eqn:Ex; [|discriminate].
    destruct (Spec.every f h) as [xs|]; [|discriminate].
    injection H as <-. cbn [mapM].
    now rewrite (Hf _ _ Ex), (IH xs eq_refl).
Qed.

Lemma pooled_every (cls : BackboneClass) (h : Hidden Emb) (v : list Emb) :
  Spec.pooled_vectors cls h = Some v -> pooled cls h = Ok v.
Proof.
  unfold pooled, Spec.pooled_vectors. destruct cls; [| |discriminate].
  - apply select_every, index_first.
  - apply select_every, index_last.
Qed.

(** The two ways a head input can be defined. *)
Lemma head_input_cases cls t (h : Hidden Emb) x :
  Spec.head_input cls t h = Some x ->
  (in_fcn_linear t = true /\ exists v, pooled cls h = Ok v /\ x = Pooled v)
  \/ (in_fcn_linear t = false /\ String.eqb t "conv" = true
      /\ x = Sequence h).
Proof.
  unfold Spec.head_input, in_fcn_linear.
  destruct (String.eqb t "fcn" || String.eqb t "linear").
  - destruct (Spec.pooled_vectors cls h) as [v|] eqn:E; [|discriminate].
    intros [= <-]. left. split; [reflexivity|].
    exists v. split; [now apply pooled_every|reflexivity].
  - destruct (String.eqb t "conv"); [|discriminate].
    intros [= <-]. now right.
Qed.

(** One head's three calls, given what the specification says it consumes. *)
Lemma head_outputs_spec (head : HeadInput Emb -> Out) cls t unsupported
    embedding (real treated control : Hidden Emb) x_real x_treated x_control :
  Spec.head_input cls t real = Some x_real ->
  Spec.head_input cls t treated = Some x_treated ->
  Spec.head_input cls t control = Some x_control ->
  (in_fcn_linear t = true ->
   exists e_real e_treated e_control,
     embedding = Some (e_real, e_treated, e_control)
     /\ pooled cls real = Ok e_real
     /\ pooled cls treated = Ok e_treated
     /\ pooled cls control = Ok e_control) ->
  head_outputs head t unsupported embedding real treated control
  = Ok (head x_real, head x_treated, head x_control).
Proof.
  intros Hr Ht Hc Hemb. unfold head_outputs.
  destruct (head_input_cases _ _ _ _ Hr) as [(E & v1 & P1 & ->)|(E & Cv & ->)];
  destruct (head_input_cases _ _ _ _ Ht) as [(E' & v2 & P2 & ->)|(E' & _ & ->)];
  destruct (head_input_cases _ _ _ _ Hc) as [(E''& v3 & P3 & ->)|(E'' & _ & ->)];
    try congruence; rewrite E.
  - destruct (Hemb E) as (e1 & e2 & e3 & -> & Q1 & Q2 & Q3).
    congruence.
  - now rewrite Cv.
Qed.

(** Training mode, from the first backbone call to the returned tuple. *)
Lemma forward_training_run (self : CausalSent)
    ids_r ids_t ids_c mask_r mask_t mask_c (h_r h_t h_c : Hidden Emb)
    s_r s_t s_c r_r r_t r_c log :
  let cls := bb_class (backbone self) in
  training self = true ->
  backbone_forward ids_r mask_r = Ok h_r ->
  backbone_forward ids_t mask_t = Ok h_t ->
  backbone_forward ids_c mask_c = Ok h_c ->
  Spec.head_input cls (sentiment_head_type self) h_r = Some s_r ->
  Spec.head_input cls (sentiment_head_type self) h_t = Some s_t ->
  Spec.head_input cls (sentiment_head_type self) h_c = Some s_c ->
  Spec.head_input cls (riesz_head_type self) h_r = Some r_r ->
  Spec.head_input cls (riesz_head_type self) h_t = Some r_t ->
  Spec.head_input cls (riesz_head_type self) h_c = Some r_c ->
  forward self ids_r ids_t ids_c mask_r mask_t mask_c log
  = (Ok (Six (sentiment_forward s_r) (sentiment_forward s_t)
             (sentiment_forward s_c)
             (riesz_forward r_r) (riesz_forward r_t) (riesz_forward r_c)),
     log ++ [(ids_r, mask_r); (ids_t, mask_t); (ids_c, mask_c)]).
Proof.
  intros cls Htr Br Bt Bc Sr St Sc Rr Rt Rc.
  unfold Forward.forward. fold cls. rewrite Htr.
  unfold tbind, call_backbone, lift. rewrite Br, Bt, Bc.
  rewrite <- !app_assoc. cbn [app]. f_equal.
  assert (Hpool : in_fcn_linear (riesz_head_type self)
                  || in_fcn_linear (sentiment_head_type self) = true ->
                  exists e1 e2 e3, pooled cls h_r = Ok e1
                                   /\ pooled cls h_t = Ok e2
                                   /\ pooled cls h_c = Ok e3).
  { intros H. apply orb_true_iff in H. destruct H as [H|H].
    - destruct (head_input_cases _ _ _ _ Rr) as [(_ & v1 & P1 & _)|(E & _)];
        [|congruence].
      destruct (head_input_cases _ _ _ _ Rt) as [(_ & v2 & P2 & _)|(E & _)];
        [|congruence].
      destruct (head_input_cases _ _ _ _ Rc) as [(_ & v3 & P3 & _)|(E & _)];
        [|congruence].
      now exists v1, v2, v3.
    - destruct (head_input_cases _ _ _ _ Sr) as [(_ & v1 & P1 & _)|(E & _)];
        [|congruence].
      destruct (head_input_cases _ _ _ _ St) as [(_ & v2 & P2 & _)|(E & _)];
        [|congruence].
      destruct (head_input_cases _ _ _ _ Sc) as [(_ & v3 & P3 & _)|(E & _)];
        [|congruence].
      now exists v1, v2, v3. }
  destruct (in_fcn_linear (riesz_head_type self)
            || in_fcn_linear (sentiment_head_type self)) eqn:Eor.
  - destruct (Hpool eq_refl) as (e1 & e2 & e3 & P1 & P2 & P3).
    rewrite P1, P2, P3. cbn [bind].
    rewrite (head_outputs_spec riesz_forward cls _ _ _ _ _ _ _ _ _ Rr Rt Rc)
      by (intros _; now exists e1, e2, e3).
    cbn [bind].
    rewrite (head_outputs_spec sentiment_forward cls _ _ _ _ _ _ _ _ _ Sr St Sc)
      by (intros _; now exists e1, e2, e3).
    reflexivity.
  - apply orb_false_iff in Eor. destruct Eor as [Er Es]. cbn [bind].
    rewrite (head_outputs_spec riesz_forward cls _ _ _ _ _ _ _ _ _ Rr Rt Rc)
      by (intros H; congruence).
    cbn [bind].
    rewrite (head_outputs_spec sentiment_forward cls _ _ _ _ _ _ _ _ _ Sr St Sc)
      by (intros H; congruence).
    reflexivity.
Qed.

(** Inference mode: one backbone call, one output. *)
Lemma forward_inference_run (self : CausalSent)
    ids_r ids_t ids_c mask_r mask_t mask_c (h_r : Hidden Emb) s_r log :
  training self = false ->
  backbone_forward ids_r mask_r = Ok h_r ->
  Spec.head_input (bb_class (backbone self)) (sentiment_head_type self) h_r
  = Some s_r ->
  forward self ids_r ids_t ids_c mask_r mask_t mask_c log
  = (Ok (One (sentiment_forward s_r)), log ++ [(ids_r, mask_r)]).
Proof.
  intros Htr Br Sr.
  unfold Forward.forward. rewrite Htr.
  unfold tbind, call_backbone, lift. rewrite Br. f_equal.
  destruct (head_input_cases _ _ _ _ Sr) as [(E & v & P & ->)|(E & Cv & ->)];
    rewrite E.
  - now rewrite P.
  - now rewrite Cv.
Qed.

(** C6: in training mode each head is called on what its own type asks
    for: a head of type [fcn] or [linear] on one pooled vector per example,
    taken at the first position for DistilBERT and at the last for LLaMA,
    a head of type [conv] on the full sequence of embeddings; the type of
    one head has no part in what the other is called on. *)
Theorem forward_pooling_policy (self : CausalSent)
    ids_r ids_t ids_c mask_r mask_t mask_c (h_r h_t h_c : Hidden Emb)
    s_r s_t s_c r_r r_t r_c :
  let cls := bb_class (backbone self) in
  training self = true ->
  backbone_forward ids_r mask_r = Ok h_r ->
  backbone_forward ids_t mask_t = Ok h_t ->
  backbone_forward ids_c mask_c = Ok h_c ->
  Spec.head_input cls (sentiment_head_type self) h_r = Some s_r ->
  Spec.head_input cls (sentiment_head_type self) h_t = Some s_t ->
  Spec.head_input cls (sentiment_head_type self) h_c = Some s_c ->
  Spec.head_input cls (riesz_head_type self) h_r = Some r_r ->
  Spec.head_input cls (riesz_head_type self) h_t = Some r_t ->
  Spec.head_input cls (riesz_head_type self) h_c = Some r_c ->
  fst (forward self ids_r ids_t ids_c mask_r mask_t mask_c [])
  = Ok (Six (sentiment_forward s_r) (sentiment_forward s_t)
            (sentiment_forward s_c)
            (riesz_forward r_r) (riesz_forward r_t) (riesz_forward r_c)).
Proof.
  intros cls Htr Br Bt Bc Sr St Sc Rr Rt Rc.
  now rewrite (forward_training_run self _ _ _ _ _ _ _ _ _ _ _ _ _ _ _ []
                 Htr Br Bt Bc Sr St Sc Rr Rt Rc).
Qed.

(** C10: in training mode [forward] calls the backbone three times, on the
    real, the treated and the control input in this order, and returns the
    six outputs as (sentiment real, treated, control, Riesz real, treated,
    control); in inference mode it calls the backbone once, on the real
    input, whatever the other inputs are, and returns the sentiment output
    alone. *)
Theorem forward_modes (self : CausalSent)
    ids_r ids_t ids_c mask_r mask_t mask_c (h_r : Hidden Emb) s_r log :
  let cls := bb_class (backbone self) in
  backbone_forward ids_r mask_r = Ok h_r ->
  Spec.head_input cls (sentiment_head_type self) h_r = Some s_r ->
  (training self = true ->
   forall h_t h_c s_t s_c r_r r_t r_c,
     backbone_forward ids_t mask_t = Ok h_t ->
     backbone_forward ids_c mask_c = Ok h_c ->
     Spec.head_input cls (sentiment_head_type self) h_t = Some s_t ->
     Spec.head_input cls (sentiment_head_type self) h_c = Some s_c ->
     Spec.head_input cls (riesz_head_type self) h_r = Some r_r ->
     Spec.head_input cls (riesz_head_type self) h_t = Some r_t ->
     Spec.head_input cls (riesz_head_type self) h_c = Some r_c ->
     forward self ids_r ids_t ids_c mask_r mask_t mask_c log
     = (Ok (Six (sentiment_forward s_r) (sentiment_forward s_t)
                (sentiment_forward s_c)
                (riesz_forward r_r) (riesz_forward r_t) (riesz_forward r_c)),
        log ++ [(ids_r, mask_r); (ids_t, mask_t); (ids_c, mask_c)]))
  /\ (training self = false ->
      forward self ids_r ids_t ids_c mask_r mask_t mask_c log
      = (Ok (One (sentiment_forward s_r)), log ++ [(ids_r, mask_r)])).
Proof.
  intros cls Br Sr. split.
  - intros Htr h_t h_c s_t s_c r_r r_t r_c Bt Bc St Sc Rr Rt Rc.
    now apply (forward_training_run self _ _ _ _ _ _ h_r h_t h_c).
  - intros Htr. now apply (forward_inference_run self _ _ _ _ _ _ h_r).
Qed.

End ForwardProps.

Section ForwardExamples.

Local Open Scope nat_scope.

(** On a sentiment head of type [fcn] and a Riesz head of type [conv] over
    DistilBERT, the first is called on the first positions and the second
    on the sequences. *)
Lemma forward_pooling_policy_witness :
  fst (Forward.forward Examples.three_positions Examples.echo Examples.echo
         Examples.mixed_heads 10 20 30 tt tt tt [])
  = Ok (Forward.Six
          (Forward.Pooled [10]) (Forward.Pooled [20]) (Forward.Pooled [30])
          (Forward.Sequence [[10; 11; 12]]) (Forward.Sequence [[20; 21; 22]])
          (Forward.Sequence [[30; 31; 32]])).
Proof.
  apply (forward_pooling_policy nat unit nat (Forward.HeadInput nat)
           Examples.three_positions Examples.echo Examples.echo
           Examples.mixed_heads 10 20 30 tt tt tt
           [[10; 11; 12]] [[20; 21; 22]] [[30; 31; 32]]);
    reflexivity.
Defined.

(** The same model in both modes: three backbone calls and six outputs when
    training, one call and one output otherwise. *)
Lemma forward_modes_witness :
  Forward.forward Examples.three_positions Examples.echo Examples.echo
    Examples.mixed_heads 10 20 30 tt tt tt []
  = (Ok (Forward.Six
           (Forward.Pooled [10]) (Forward.Pooled [20]) (Forward.Pooled [30])
           (Forward.Sequence [[10; 11; 12]]) (Forward.Sequence [[20; 21; 22]])
           (Forward.Sequence [[30; 31; 32]])),
     [(10, tt); (20, tt); (30, tt)])
  /\ Forward.forward Examples.three_positions Examples.echo Examples.echo
       (Examples.in_eval_mode Examples.mixed_heads) 10 20 30 tt tt tt []
     = (Ok (Forward.One (Forward.Pooled [10])), [(10, tt)]).
Proof.
  split.
  - apply (proj1 (forward_modes nat unit nat (Forward.HeadInput nat)
                    Examples.three_positions Examples.echo Examples.echo
                    Examples.mixed_heads 10 20 30 tt tt tt
                    [[10; 11; 12]] (Forward.Pooled [10]) []
                    eq_refl eq_refl) eq_refl
                 [[20; 21; 22]] [[30; 31; 32]]);
      reflexivity.
  - apply (proj2 (forward_modes nat unit nat (Forward.HeadInput nat)
                    Examples.three_positions Examples.echo Examples.echo
                    (Examples.in_eval_mode Examples.mixed_heads)
                    10 20 30 tt tt tt
                    [[10; 11; 12]] (Forward.Pooled [10]) []
                    eq_refl eq_refl) eq_refl).
Defined.

End ForwardExamples.

(** ** The unfreeze theorems on the small models *)

Section UnfreezeExamples.

Import Examples.

(** The constructor on the small library: DistilBERT, frozen, under two
    trainable heads. *)
Lemma init_distilbert :
  init from_pretrained one_tensor_head one_tensor_head
       "distilbert-base-uncased" "fcn" "fcn"
  = Ok (model_of distilbert).
Proof. reflexivity. Qed.

Lemma small_library_loads_weights : loads_weights from_pretrained.
Proof.
  intros cls name b H. destruct cls; injection H as <-; discriminate.
Qed.


(** A LLaMA-shaped backbone refuses "all" and leaves the model as it was. *)
Lemma unfreeze_without_encoder_witness :
  unfreeze_backbone (NStr "all") (model_of llama)
  = (Err attribute_error, model_of llama).
Proof.
  apply (proj1 (proj2 (unfreeze_without_encoder (model_of llama)
                         eq_refl eq_refl))).
Defined.

(** After the constructor and two unfreeze calls. *)
Lemma percentages_in_range_witness :
  let m := snd (unfreeze_backbone_fraction (Q2Qc (1 # 2))
                  (snd (unfreeze_backbone (NInt 1) (model_of distilbert)))) in
  (exists v, percentage_trainable_params m = Ok v
             /\ (0 <= v)%Qc /\ (v <= Q2Qc (inject_Z 100))%Qc)
  /\ (exists v, percentage_trainable_backbone_params m = Ok v
                /\ (0 <= v)%Qc /\ (v <= Q2Qc (inject_Z 100))%Qc).
Proof.
  intros m.
  apply (percentages_in_range from_pretrained one_tensor_head one_tensor_head m).
  - intros cls name b H. destruct cls; injection H as <-; discriminate.
  - apply reach_fraction, reach_unfreeze.
    apply (reach_init from_pretrained one_tensor_head one_tensor_head
             "distilbert-base-uncased" "fcn" "fcn").
    reflexivity.
Defined.

(** [unfreeze_backbone(0)] right after the constructor. *)
Lemma unfreeze_backbone_nonpositive_witness :
  let m := model_of distilbert in
  snd (unfreeze_backbone (NInt 0) m) = m
  /\ percentage_trainable_backbone_params m = Ok (Q2Qc 0)
  /\ exists r, fst (unfreeze_backbone (NInt 0) m) = Ok r
               /\ trainable_backbone r = Q2Qc 0.
Proof.
  intros m.
  assert (H0 : (0 <= 0)%Z) by lia.
  destruct (unfreeze_backbone_nonpositive
              from_pretrained one_tensor_head one_tensor_head 0 H0)
    as [Hnoop Hinit].
  split; [apply Hnoop|].
  apply (Hinit "distilbert-base-uncased" "fcn" "fcn" m).
  - intros cls name b H. destruct cls; injection H as <-; discriminate.
  - reflexivity.
Defined.

End UnfreezeExamples.

(** ** Means and losses *)

Section Losses.

Import Tensor Train.
Local Open Scope Qc_scope.

Lemma mean_average (t : tensor) :
  t <> [] -> mean t = Fin (Spec.average t).
Proof. destruct t; [congruence|reflexivity]. Qed.

Lemma map2_length f (a b : tensor) :
  length a = length b -> length (map2 f a b) = length a.
Proof.
  revert b. induction a as [|x a IH]; intros [|y b] H; try discriminate;
    [reflexivity|].
  cbn [map2 length]. f_equal. apply IH. now injection H.
Qed.

(** With equal sizes nothing is broadcast and nothing raises. *)
Lemma elementwise_same_length f (a b : tensor) :
  length a = length b -> elementwise f a b = Ok (map2 f a b).
Proof.
  intros H. unfold elementwise. now rewrite H, Nat.eqb_refl.
Qed.

Lemma minus_two : Q2Qc (inject_Z (-2)) = - (1 + 1).
Proof. apply Qc_is_canon. reflexivity. Qed.

Lemma square_power (x : Qc) : x * x = x ^ 2.
Proof. cbn [Qcpower]. ring. Qed.

(** A pointwise tensor expression, entry by entry. *)
Lemma map_seq_cons (f : nat -> Qc) (g : nat -> Qc) (n : nat) :
  (forall i, f (S i) = g i) ->
  map f (seq 1 n) = map g (seq 0 n).
Proof.
  intros H. rewrite <- seq_shift, map_map. apply map_ext. exact H.
Qed.

Lemma riesz_terms (rr rt rc : tensor) :
  length rt = length rr -> length rc = length rr ->
  map2 Qcplus (scale (Q2Qc (inject_Z (-2))) (map2 Qcminus rt rc)) (square rr)
  = map (fun i => - (1 + 1) * (Spec.at_ rt i - Spec.at_ rc i)
                  + Spec.at_ rr i ^ 2)
        (seq 0 (length rr)).
Proof.
  revert rt rc.
  induction rr as [|x rr IH]; intros [|y rt] [|z rc] Ht Hc;
    try discriminate; [reflexivity|].
  injection Ht as Ht. injection Hc as Hc.
  cbn [map2 scale square map length seq]. f_equal.
  - unfold Spec.at_. cbn [nth]. now rewrite minus_two, square_power.
  - fold (scale (Q2Qc (inject_Z (-2))) (map2 Qcminus rt rc)).
    fold (square rr). rewrite (IH rt rc Ht Hc).
    symmetry. apply map_seq_cons. reflexivity.
Qed.

Lemma reg_terms (st sc : tensor) (tau : Qc) :
  length sc = length st ->
  square (sub_scalar (map2 Qcminus st sc) tau)
  = map (fun i => (Spec.at_ st i - Spec.at_ sc i - tau) ^ 2)
        (seq 0 (length st)).
Proof.
  revert sc.
  induction st as [|x st IH]; intros [|y sc] Hc; try discriminate;
    [reflexivity|].
  injection Hc as Hc.
  cbn [map2 sub_scalar square map length seq]. f_equal.
  - unfold Spec.at_. cbn [nth]. now rewrite square_power.
  - fold (sub_scalar (map2 Qcminus st sc) tau).
    fold (square (sub_scalar (map2 Qcminus st sc) tau)).
    rewrite (IH sc Hc). symmetry. apply map_seq_cons. reflexivity.
Qed.

Lemma compute_riesz_loss_spec (rr rt rc : tensor) (n : nat) :
  length rr = S n -> length rt = S n -> length rc = S n ->
  compute_riesz_loss rr rt rc = Ok (Fin (Spec.riesz_loss rr rt rc)).
Proof.
  intros Hr Ht Hc. unfold compute_riesz_loss, sub, add.
  rewrite elementwise_same_length by congruence. cbn [bind].
  rewrite elementwise_same_length
    by (unfold scale, square; rewrite !length_map, map2_length; congruence).
  cbn [bind]. rewrite riesz_terms by congruence.
  rewrite mean_average by (rewrite Hr; discriminate).
  reflexivity.
Qed.

Lemma compute_reg_loss_spec (st sc : tensor) (tau : Qc) (n : nat) :
  length st = S n -> length sc = S n ->
  compute_reg_loss st sc (Fin tau) = Ok (Fin (Spec.reg_loss st sc tau)).
Proof.
  intros Hs Hc. unfold compute_reg_loss, sub.
  rewrite elementwise_same_length by congruence. cbn [bind].
  rewrite reg_terms by congruence.
  rewrite mean_average by (rewrite Hs; discriminate).
  reflexivity.
Qed.

End Losses.

(** ** The training loop *)

(** Closed equalities between values that hold rationals. *)
Ltac qc_eq :=
  lazymatch goal with
  | |- @eq Qc _ _ => apply Qc_is_canon; vm_compute; reflexivity
  | |- _ => first [reflexivity | f_equal; qc_eq]
  end.

Ltac qc_eval := vm_compute; qc_eq.

Section LoopProps.

Import Tensor Train.
Local Open Scope Qc_scope.

Variables Ids Mask Weights : Type.
Variable sigmoid : Qc -> Qc.
Variable bce_loss : tensor -> tensor -> result pyfloat.
Variable args : Args.
Variable optimizer_step :
  Weights -> Batch Ids Mask -> option Accumulators -> Weights.

(** With the flag cleared the running estimate is the mean of the targets
    alone. *)
Lemma running_tau_hat_on_targets (a : Accumulators) :
  estimate_targets_for_ate args = false ->
  running_tau_hat args a = Ok (mean (cat (epoch_targets a))).
Proof. intros H. unfold running_tau_hat. now rewrite H. Qed.

(** *** The running estimate over the batches seen so far *)

Lemma accumulate_all_some (bs : list (tensor * tensor * tensor))
    (a : Accumulators) :
  accumulate_all sigmoid (Some a) bs
  = Some (mkAccumulators
            (epoch_riesz_outputs a ++ map (fun b => fst (fst b)) bs)
            (epoch_sentiment_outputs a
               ++ map (fun b => map sigmoid (snd (fst b))) bs)
            (epoch_targets a ++ map snd bs)).
Proof.
  revert a. induction bs as [|[[r s] t] bs IH]; intros a.
  - cbn. rewrite !app_nil_r. now destruct a.
  - cbn [accumulate_all fold_left].
    change (fold_left _ bs ?x) with (accumulate_all sigmoid x bs).
    rewrite IH. unfold accumulate. cbn [epoch_riesz_outputs
      epoch_sentiment_outputs epoch_targets map fst snd].
    now rewrite <- !app_assoc.
Qed.

Lemma accumulate_all_none (bs : list (tensor * tensor * tensor)) :
  bs <> [] ->
  accumulate_all sigmoid None bs
  = Some (mkAccumulators
            (map (fun b => fst (fst b)) bs)
            (map (fun b => map sigmoid (snd (fst b))) bs)
            (map snd bs)).
Proof.
  destruct bs as [|[[r s] t] bs]; [congruence|]. intros _.
  change (accumulate_all sigmoid None ((r, s, t) :: bs))
    with (accumulate_all sigmoid (Some (mkAccumulators [] [] []))
                         ((r, s, t) :: bs)).
  now rewrite accumulate_all_some.
Qed.

Lemma map2_app f (a a' b b' : tensor) :
  length a = length b ->
  map2 f (a ++ a') (b ++ b') = map2 f a b ++ map2 f a' b'.
Proof.
  revert b. induction a as [|x a IH]; intros [|y b] H; try discriminate;
    [reflexivity|].
  cbn [app map2]. f_equal. apply IH. now injection H.
Qed.

(** Riesz output times estimated outcome, example by example. *)
Lemma products_of_batch (r s t : tensor) :
  Spec.aligned (r, s, t) ->
  map2 Qcmult r (map sigmoid s)
  = map (fun ex => Spec.ex_riesz ex * Spec.outcome sigmoid true ex)
        (Spec.examples_of r s t).
Proof.
  intros [Hs Ht]. revert s t Hs Ht.
  induction r as [|x r IH]; intros [|y s] [|z t] Hs Ht; try discriminate;
    [reflexivity|].
  cbn [map map2 Spec.examples_of]. f_equal.
  apply IH; [now injection Hs|now injection Ht].
Qed.

Lemma targets_of_batch (r s t : tensor) :
  Spec.aligned (r, s, t) ->
  t = map Spec.ex_target (Spec.examples_of r s t).
Proof.
  intros [Hs Ht]. revert s t Hs Ht.
  induction r as [|x r IH]; intros [|y s] [|z t] Hs Ht; try discriminate;
    [reflexivity|].
  cbn [map Spec.examples_of Spec.ex_target]. f_equal.
  apply IH; [now injection Hs|now injection Ht].
Qed.

Lemma products_of_batches (bs : list (tensor * tensor * tensor)) :
  Forall Spec.aligned bs ->
  let rs := cat (map (fun b => fst (fst b)) bs) in
  let ss := cat (map (fun b => map sigmoid (snd (fst b))) bs) in
  length rs = length ss
  /\ map2 Qcmult rs ss
     = map (fun ex => Spec.ex_riesz ex * Spec.outcome sigmoid true ex)
           (Spec.examples_of_batches bs).
Proof.
  unfold cat. induction 1 as [|[[r s] t] bs Hb _ [IHlen IH]]; [now split|].
  cbn [map concat fst snd Spec.examples_of_batches flat_map].
  assert (Hlen : length r = length (map sigmoid s))
    by (rewrite length_map; symmetry; apply Hb).
  split.
  - rewrite !length_app. now rewrite Hlen, IHlen.
  - rewrite map2_app by exact Hlen. rewrite map_app. f_equal.
    + now apply products_of_batch.
    + exact IH.
Qed.

Lemma targets_of_batches (bs : list (tensor * tensor * tensor)) :
  Forall Spec.aligned bs ->
  cat (map snd bs) = map Spec.ex_target (Spec.examples_of_batches bs).
Proof.
  unfold cat. induction 1 as [|[[r s] t] bs Hb _ IH]; [reflexivity|].
  cbn [map concat snd Spec.examples_of_batches flat_map].
  rewrite map_app. f_equal; [now apply targets_of_batch|exact IH].
Qed.

(** X18: With the flag set, the running estimate after any run of batches is
    the mean, over all their examples, of Riesz output times the sigmoid
    of the logit. *)
Lemma running_tau_hat_estimated (bs : list (tensor * tensor * tensor)) :
  estimate_targets_for_ate args = true ->
  Forall Spec.aligned bs ->
  Spec.examples_of_batches bs <> [] ->
  exists a,
    accumulate_all sigmoid None bs = Some a
    /\ running_tau_hat args a
       = Ok (Fin (Spec.tau_hat sigmoid true (Spec.examples_of_batches bs))).
Proof.
  intros Hest Hal Hne.
  assert (Hbs : bs <> []) by (intros ->; now apply Hne).
  eexists. split; [now apply accumulate_all_none|].
  unfold running_tau_hat. rewrite Hest.
  cbn [epoch_riesz_outputs epoch_sentiment_outputs].
  destruct (products_of_batches bs Hal) as [Hlen Hprod].
  unfold mul. rewrite elementwise_same_length by exact Hlen.
  cbn [bind]. rewrite Hprod, mean_average; [reflexivity|].
  intros E. apply map_eq_nil in E. now apply Hne.
Qed.

(** X19: With the flag cleared it is the mean of their targets: the Riesz
    outputs have no part in it. *)
Lemma running_tau_hat_true_targets (bs : list (tensor * tensor * tensor)) :
  estimate_targets_for_ate args = false ->
  Forall Spec.aligned bs ->
  Spec.examples_of_batches bs <> [] ->
  exists a,
    accumulate_all sigmoid None bs = Some a
    /\ running_tau_hat args a
       = Ok (Fin (Spec.average
                    (map Spec.ex_target (Spec.examples_of_batches bs)))).
Proof.
  intros Hest Hal Hne.
  assert (Hbs : bs <> []) by (intros ->; now apply Hne).
  eexists. split; [now apply accumulate_all_none|].
  rewrite running_tau_hat_on_targets by exact Hest.
  cbn [epoch_targets]. rewrite targets_of_batches by exact Hal.
  rewrite mean_average; [reflexivity|].
  intros E. apply map_eq_nil in E. now apply Hne.
Qed.

(** *** The estimate of one more batch *)




(** C5: on a batch of [n + 1] examples whose estimate and classification
    loss are finite, the step records the Riesz loss
    mean(-2 (treated - control) + real^2), the regularization loss
    mean((treated - control - tau_hat)^2), and as total loss the sum of the
    three terms, each under its own coefficient of [args]. *)
Theorem batch_losses (epoch i : nat) (st : Locals Weights)
    (batch : Batch Ids Mask) (sr stt sc rr rt rc : tensor)
    (n : nat) (acc' : option Accumulators) (t b : Qc) :
  length rr = S n -> length rt = S n -> length rc = S n ->
  length stt = S n -> length sc = S n ->
  compute_tau_hat sigmoid args (accumulators st) rr sr (targets batch)
  = Ok (acc', Fin t) ->
  bce_loss sr (targets batch) = Ok (Fin b) ->
  let R := Spec.riesz_loss rr rt rc in
  let G := Spec.reg_loss stt sc t in
  let L := Spec.total_loss (lambda_bce args) (lambda_reg args)
                           (lambda_riesz args) b G R in
  batch_step sigmoid bce_loss args optimizer_step epoch i st batch
             sr stt sc rr rt rc
  = Ok (mkLocals (optimizer_step (weights st) batch acc') acc'
                 (fadd (total_loss st) (Fin L)),
        mkStep epoch i (Fin t) (Fin R) (Fin G) (Fin b) (Fin L)).
Proof.
  intros Hrr Hrt Hrc Hst Hsc Htau Hb R G L.
  unfold batch_step. rewrite Htau. cbn [bind].
  rewrite (compute_riesz_loss_spec rr rt rc n Hrr Hrt Hrc). cbn [bind].
  rewrite (compute_reg_loss_spec stt sc t n Hst Hsc). cbn [bind].
  rewrite Hb. cbn [bind].
  reflexivity.
Qed.

End LoopProps.

Section LoopExamples.

Import Tensor Train Examples.

(** One example with Riesz outputs 3, 2, 1 and sentiment outputs 0, 5, 3,
    under the coefficients 1, 2, 3. *)
Lemma batch_losses_witness :
  batch_step flat_sigmoid no_bce per_batch keep 0 0
             (mkLocals tt None (Fin (Q2Qc 0)))
             (one_example (Q2Qc 0) (Q2Qc 1))
             [Q2Qc 0] [Q2Qc 5] [Q2Qc 3] [Q2Qc 3] [Q2Qc 2] [Q2Qc 1]
  = Ok (mkLocals tt None
          (fadd (Fin (Q2Qc 0))
                (Fin (Spec.total_loss (Q2Qc 1) (Q2Qc 2) (Q2Qc 3) (Q2Qc 0)
                        (Spec.reg_loss [Q2Qc 5] [Q2Qc 3] (Q2Qc (3 # 2)))
                        (Spec.riesz_loss [Q2Qc 3] [Q2Qc 2] [Q2Qc 1])))),
        mkStep 0 0 (Fin (Q2Qc (3 # 2)))
          (Fin (Spec.riesz_loss [Q2Qc 3] [Q2Qc 2] [Q2Qc 1]))
          (Fin (Spec.reg_loss [Q2Qc 5] [Q2Qc 3] (Q2Qc (3 # 2))))
          (Fin (Q2Qc 0))
          (Fin (Spec.total_loss (Q2Qc 1) (Q2Qc 2) (Q2Qc 3) (Q2Qc 0)
                  (Spec.reg_loss [Q2Qc 5] [Q2Qc 3] (Q2Qc (3 # 2)))
                  (Spec.riesz_loss [Q2Qc 3] [Q2Qc 2] [Q2Qc 1])))).
Proof.
  apply (batch_losses Qc unit unit flat_sigmoid no_bce per_batch keep 0 0
           (mkLocals tt None (Fin (Q2Qc 0))) (one_example (Q2Qc 0) (Q2Qc 1))
           [Q2Qc 0] [Q2Qc 5] [Q2Qc 3] [Q2Qc 3] [Q2Qc 2] [Q2Qc 1]
           0%nat None (Q2Qc (3 # 2)) (Q2Qc 0));
    reflexivity.
Defined.



(** One batch of two examples through the loop body, with every logit
    zero and a finite classification loss. *)
Lemma train_batch_two_examples
    (bce_loss : tensor -> tensor -> result pyfloat) (epoch i : nat)
    (st : Locals unit) (x y t u b tau : Qc) (acc' : option Accumulators) :
  bce_loss [Q2Qc 0; Q2Qc 0] [t; u] = Ok (Fin b) ->
  compute_tau_hat flat_sigmoid running_two_epochs (accumulators st)
                  [x; y] [Q2Qc 0; Q2Qc 0] [t; u]
  = Ok (acc', Fin tau) ->
  exists st' step,
    train_batch emit_rows read zero_logits flat_sigmoid bce_loss
                running_two_epochs keep_rows
                (train_mode (model_of distilbert)) epoch i st
                (two_examples x y t u)
    = Ok (st', step)
    /\ accumulators st' = acc'
    /\ step_epoch step = epoch
    /\ tau_hat step = Fin tau.
Proof.
  intros Hb Htau.
  change (train_batch emit_rows read zero_logits flat_sigmoid bce_loss
            running_two_epochs keep_rows
            (train_mode (model_of distilbert)) epoch i st
            (two_examples x y t u))
    with (batch_step flat_sigmoid bce_loss running_two_epochs keep_rows
            epoch i st (two_examples x y t u)
            [Q2Qc 0; Q2Qc 0] [Q2Qc 0; Q2Qc 0] [Q2Qc 0; Q2Qc 0]
            [x; y] [x; y] [x; y]).
  unfold batch_step. cbn [targets two_examples].
  rewrite Htau. cbn [bind].
  rewrite (compute_riesz_loss_spec [x; y] [x; y] [x; y] 1) by reflexivity.
  cbn [bind].
  rewrite (compute_reg_loss_spec [Q2Qc 0; Q2Qc 0] [Q2Qc 0; Q2Qc 0] tau 1)
    by reflexivity.
  cbn [bind]. rewrite Hb. cbn [bind].
  do 2 eexists. split; [reflexivity|]. repeat split.
Qed.

(** Two epochs of one batch of two examples each, the flag set, every
    logit zero.  Whatever finite value the classification loss takes, the
    run ends without an exception after one batch in each epoch, with the
    estimates 3/2 and 5/2, and with the targets of both epochs in the
    accumulators. *)
Lemma two_epochs_of_two_examples
    (bce_loss : tensor -> tensor -> result pyfloat) :
  (forall logits targets, exists b, bce_loss logits targets = Ok (Fin b)) ->
  let r := run_rows bce_loss running_two_epochs two_examples_per_epoch in
  snd r = None
  /\ map step_epoch (snd (fst r)) = [0%nat; 1%nat]
  /\ estimates r = [Fin (Q2Qc (3 # 2)); Fin (Q2Qc (5 # 2))]
  /\ Order.accumulated_targets (accumulators (fst (fst r)))
     = [[Q2Qc 1; Q2Qc 0]; [Q2Qc 0; Q2Qc 1]].
Proof.
  intros Hb r. subst r.
  destruct (Hb [Q2Qc 0; Q2Qc 0] [Q2Qc 1; Q2Qc 0]) as [b1 E1].
  destruct (Hb [Q2Qc 0; Q2Qc 0] [Q2Qc 0; Q2Qc 1]) as [b2 E2].
  unfold run_rows, training_loop, estimates.
  cbn [epochs running_two_epochs train_epochs two_examples_per_epoch
       train_batches].
  destruct (train_batch_two_examples bce_loss 0 0
              (mkLocals tt None (Fin (Q2Qc 0)))
              (Q2Qc 2) (Q2Qc 4) (Q2Qc 1) (Q2Qc 0) b1 (Q2Qc (3 # 2))
              (accumulate_all flat_sigmoid None [first_outputs]) E1)
    as (st1 & s1 & T1 & A1 & P1 & H1); [qc_eval|].
  cbn [weights accumulators]. rewrite T1.
  destruct (train_batch_two_examples bce_loss 1 0
              (mkLocals (weights st1) (accumulators st1) (Fin (Q2Qc 0)))
              (Q2Qc 6) (Q2Qc 8) (Q2Qc 0) (Q2Qc 1) b2 (Q2Qc (5 # 2))
              (accumulate_all flat_sigmoid None
                 [first_outputs; second_outputs]) E2)
    as (st2 & s2 & T2 & A2 & P2 & H2);
    [cbn [accumulators]; rewrite A1; qc_eval|].
  rewrite T2. cbn [fst snd map app]. rewrite A2, P1, P2, H1, H2.
  repeat split.
Qed.


End LoopExamples.

(** ** The entry point *)

Section ProgramProps.

Import Tensor Train Forward Program.

Variables Ids Mask Emb Weights : Type.
Variable from_pretrained : BackboneClass -> string -> result Backbone.
Variable RieszHead : Z -> Z -> string -> result (list Param).
Variable SentimentHead : Z -> Z -> string -> result (list Param).
Variable prepare : Args -> result (nat -> list (Batch Ids Mask)).
Variable initial_weights : CausalSent -> Weights.
Variable backbone_forward : Weights -> Ids -> Mask -> result (Hidden Emb).
Variable riesz_forward : Weights -> HeadInput Emb -> tensor.
Variable sentiment_forward : Weights -> HeadInput Emb -> tensor.
Variable sigmoid : Qc -> Qc.
Variable bce_loss : tensor -> tensor -> result pyfloat.
Variable optimizer_step :
  Weights -> Batch Ids Mask -> option Accumulators -> Weights.

(** The constructor has no parameter called [bert_hidden_size]. *)
Lemma new_rejects_bert_hidden_size (name : string) :
  new from_pretrained RieszHead SentimentHead
      [ ("bert_hidden_size", VInt 768); ("pretrained_model_name", VStr name) ]
  = Err (TypeError "got an unexpected keyword argument bert_hidden_size").
Proof. reflexivity. Qed.

(** C3: whatever the arguments, [train_causal_sent] ends in an exception
    with no batch processed; once the data is prepared that exception is
    the [TypeError] of the constructor call, which passes the keyword
    [bert_hidden_size]. *)
Theorem train_causal_sent_never_trains (args : Args) :
  train_causal_sent from_pretrained RieszHead SentimentHead prepare
    initial_weights backbone_forward riesz_forward sentiment_forward
    sigmoid bce_loss optimizer_step args
  = ([],
     Err (match prepare args with
          | Err e => e
          | Ok _ =>
              TypeError "got an unexpected keyword argument bert_hidden_size"
          end)).
Proof.
  unfold train_causal_sent.
  destruct (prepare args); [|reflexivity].
  now rewrite new_rejects_bert_hidden_size.
Qed.

End ProgramProps.

(* ================================================================== *)
(** * Part III: further properties of the code *)
(* ================================================================== *)

Import Order.

(** ** More on counting parameters *)

Section MoreCounting.

Local Open Scope Qc_scope.

Lemma trainable_numel_app (a b : list Param) :
  trainable_numel (a ++ b) = (trainable_numel a + trainable_numel b)%N.
Proof.
  unfold trainable_numel. now rewrite filter_app, total_numel_app.
Qed.

Lemma trainable_numel_all (ps : list Param) :
  all_trainable ps -> trainable_numel ps = total_numel ps.
Proof.
  unfold trainable_numel, all_trainable.
  induction ps as [|p ps IH]; intros H; [reflexivity|].
  cbn [filter]. rewrite (H p (or_introl eq_refl)). cbn [total_numel fold_right].
  f_equal. apply IH. intros q Hq. apply H. now right.
Qed.

Lemma all_trainable_app (a b : list Param) :
  all_trainable (a ++ b) <-> all_trainable a /\ all_trainable b.
Proof.
  unfold all_trainable. split.
  - intros H. split; intros p Hp; apply H, in_app_iff; auto.
  - intros [Ha Hb] p Hp. apply in_app_iff in Hp. destruct Hp; auto.
Qed.

Lemma all_trainable_set (ps : list Param) :
  all_trainable (set_requires_grad true ps).
Proof. intros p. apply In_set_requires_grad. Qed.

(** With everything trainable the percentage is 100. *)
Lemma percentage_full (ps : list Param) :
  total_numel ps <> 0%N ->
  all_trainable ps ->
  percentage ps = Ok hundred.
Proof.
  intros H Hall. unfold percentage, truediv.
  rewrite (trainable_numel_all ps Hall).
  destruct (Z.eqb_spec (Z.of_N (total_numel ps)) 0) as [E|E]; [lia|].
  cbn [bind]. f_equal. unfold Qcdiv.
  rewrite Qcmult_inv_r; [apply Qcmult_1_l|].
  intros E0. apply Q2Qc_eq_iff in E0.
  apply E. unfold Qeq in E0. cbn in E0. lia.
Qed.

(** The only exception a percentage raises. *)
Lemma percentage_error (ps : list Param) (e : exn) :
  percentage ps = Err e -> e = ZeroDivisionError /\ total_numel ps = 0%N.
Proof.
  unfold percentage, truediv.
  destruct (Z.eqb_spec (Z.of_N (total_numel ps)) 0) as [E|E]; cbn [bind].
  - intros [= <-]. split; [reflexivity|lia].
  - discriminate.
Qed.

Lemma report_error (m : CausalSent) (e : exn) :
  report m = Err e -> e = ZeroDivisionError.
Proof.
  unfold report, percentage_trainable_params,
    percentage_trainable_backbone_params.
  destruct (percentage (parameters m)) eqn:E1; cbn [bind].
  - destruct (percentage (backbone_parameters (backbone m))) eqn:E2;
      cbn [bind]; [discriminate|].
    intros [= <-]. now apply percentage_error in E2.
  - intros [= <-]. now apply percentage_error in E1.
Qed.

End MoreCounting.

(** ** The constructor *)

Section ConstructorProps.

Local Open Scope Qc_scope.

Variable from_pretrained : BackboneClass -> string -> result Backbone.
Variable RieszHead : Z -> Z -> string -> result (list Param).
Variable SentimentHead : Z -> Z -> string -> result (list Param).

#[local] Abbreviation reachable :=
  (reachable from_pretrained RieszHead SentimentHead).
#[local] Abbreviation init := (init from_pretrained RieszHead SentimentHead).

(** What a successful construction from a given family looks like. *)
Lemma init_from_class (cls : BackboneClass) name st rt m :
  (b <- load from_pretrained cls name ;;
   riesz <- RieszHead (hidden_size b) (floordiv (hidden_size b) 2) rt ;;
   sentiment <- SentimentHead (hidden_size b) (floordiv (hidden_size b) 2) st ;;
   Ok (mkCausalSent st rt (set_backbone false b) (hidden_size b)
                    (set_requires_grad true riesz)
                    (set_requires_grad true sentiment) true)) = Ok m ->
  bb_class (backbone m) = cls
  /\ sentiment_head_type m = st /\ riesz_head_type m = rt
  /\ backbone_hidden_size m = hidden_size (backbone m)
  /\ training m = true.
Proof.
  unfold load.
  destruct (from_pretrained cls name) as [b|]; [|discriminate].
  cbn [bind hidden_size].
  destruct (RieszHead _ _ rt); [|discriminate]. cbn [bind].
  destruct (SentimentHead _ _ st); [|discriminate]. cbn [bind].
  intros [= <-]. repeat split.
Qed.

(** X1: The backbone family follows the model name: DistilBERT when the name
    contains "bert", also when it contains "llama" as well; LLaMA when it
    contains "llama" and not "bert"; with neither the constructor raises
    [ValueError] whatever the library and the heads would do.  A
    constructed model records its head types and the hidden size of its
    backbone, and is in training mode. *)
Theorem init_backbone_family name st rt :
  (contains "bert" name = false -> contains "llama" name = false ->
   init name st rt = Err (ValueError "[ERROR] Unsupported model name."))
  /\ (forall m,
        init name st rt = Ok m ->
        bb_class (backbone m)
        = (if contains "bert" name then DistilBertModel else LlamaModel)
        /\ sentiment_head_type m = st /\ riesz_head_type m = rt
        /\ backbone_hidden_size m = hidden_size (backbone m)
        /\ training m = true).
Proof.
  unfold Construct.init. split.
  - now intros -> ->.
  - intros m. destruct (contains "bert" name); [apply init_from_class|].
    destruct (contains "llama" name); [apply init_from_class|discriminate].
Qed.

(** X2: Right after construction the trainable weights are the weights of the
    two heads: the percentage of trainable parameters is their share of
    the whole model. *)
Theorem init_trainable_share name st rt m :
  init name st rt = Ok m ->
  trainable_numel (parameters m) = total_numel (riesz m ++ sentiment m)
  /\ percentage_trainable_params m
     = (r <- truediv (Z.of_N (total_numel (riesz m ++ sentiment m)))
                     (Z.of_N (total_numel (parameters m))) ;;
        Ok (r * hundred)).
Proof.
  intros H.
  destruct (init_inv from_pretrained RieszHead SentimentHead _ _ _ _ H)
    as (cls & b & rz & sn & _ & HB & HR & HS).
  assert (E : trainable_numel (parameters m)
              = total_numel (riesz m ++ sentiment m)).
  { unfold parameters. rewrite trainable_numel_app.
    rewrite (trainable_numel_frozen (backbone_parameters (backbone m)))
      by (intros p; rewrite HB; apply In_set_backbone).
    rewrite (trainable_numel_all (riesz m ++ sentiment m)); [reflexivity|].
    rewrite HR, HS. apply all_trainable_app.
    split; apply all_trainable_set. }
  split; [exact E|].
  unfold percentage_trainable_params, percentage. now rewrite E.
Qed.

(** No unfreeze call touches the heads. *)
Lemma unfreeze_backbone_heads nl m :
  riesz (snd (unfreeze_backbone nl m)) = riesz m
  /\ sentiment (snd (unfreeze_backbone nl m)) = sentiment m.
Proof.
  unfold unfreeze_backbone. destruct nl as [s|n].
  - destruct (get_encoder (backbone m)); [|now split].
    destruct (String.eqb s "all"); now split.
  - destruct (n <=? 0)%Z; [now split|].
    destruct (get_encoder (backbone m)); now split.
Qed.

Lemma unfreeze_backbone_fraction_heads f m :
  riesz (snd (unfreeze_backbone_fraction f m)) = riesz m
  /\ sentiment (snd (unfreeze_backbone_fraction f m)) = sentiment m.
Proof.
  unfold unfreeze_backbone_fraction.
  destruct (get_encoder (backbone m)); [|now split].
  apply unfreeze_backbone_heads.
Qed.

(** X3: Head parameters are trainable in every state the model can reach. *)
Theorem heads_stay_trainable m :
  reachable m -> all_trainable (riesz m ++ sentiment m).
Proof.
  induction 1 as [name st rt m Hinit|nl m _ IH|f m _ IH].
  - destruct (init_inv from_pretrained RieszHead SentimentHead _ _ _ _ Hinit)
      as (cls & b & rz & sn & _ & _ & -> & ->).
    apply all_trainable_app. split; apply all_trainable_set.
  - destruct (unfreeze_backbone_heads nl m) as [-> ->]. exact IH.
  - destruct (unfreeze_backbone_fraction_heads f m) as [-> ->]. exact IH.
Qed.

End ConstructorProps.

(** ** More on unfreezing *)

Section MoreUnfreezing.

Local Open Scope Qc_scope.

(** *** Flags only go up *)

Lemma no_less_trainable_refl (ps : list Param) :
  Forall2 no_less_trainable ps ps.
Proof. induction ps; constructor; [now split|assumption]. Qed.

Lemma no_less_trainable_set (ps : list Param) :
  Forall2 no_less_trainable ps (set_requires_grad true ps).
Proof.
  induction ps as [|p ps IH]; cbn; constructor; [now split|exact IH].
Qed.

Lemma no_less_trainable_concat_set (ls : list Layer) :
  Forall2 no_less_trainable (concat ls)
          (concat (map (set_requires_grad true) ls)).
Proof.
  induction ls as [|l ls IH]; cbn [map concat]; [constructor|].
  apply Forall2_app; [apply no_less_trainable_set|exact IH].
Qed.

Lemma no_less_trainable_set_encoder (e : Encoder) :
  Forall2 no_less_trainable (encoder_parameters e)
          (encoder_parameters (set_encoder true e)).
Proof.
  unfold encoder_parameters, set_encoder. cbn [layer enc_rest].
  apply Forall2_app;
    [apply no_less_trainable_concat_set|apply no_less_trainable_set].
Qed.

Lemma no_less_trainable_unfreeze_last (n : Z) (e : Encoder) :
  Forall2 no_less_trainable (encoder_parameters e)
          (encoder_parameters (unfreeze_last n e)).
Proof.
  unfold encoder_parameters, unfreeze_last, last_n. cbn [layer enc_rest].
  apply Forall2_app; [|apply no_less_trainable_refl].
  rewrite <- (firstn_skipn (length (layer e) - Z.to_nat n) (layer e)) at 1.
  rewrite !concat_app.
  apply Forall2_app;
    [apply no_less_trainable_refl|apply no_less_trainable_concat_set].
Qed.

Lemma no_less_trainable_opt (f : Encoder -> Encoder) (o : option Encoder) :
  (forall e, Forall2 no_less_trainable (encoder_parameters e)
                     (encoder_parameters (f e))) ->
  Forall2 no_less_trainable (opt_encoder_parameters o)
          (opt_encoder_parameters (option_map f o)).
Proof. intros H. destruct o; cbn; [apply H|constructor]. Qed.

Lemma no_less_trainable_set_backbone (b : Backbone) :
  Forall2 no_less_trainable (backbone_parameters b)
          (backbone_parameters (set_backbone true b)).
Proof.
  unfold backbone_parameters, set_backbone.
  cbn [bb_rest attr_encoder attr_transformer].
  repeat apply Forall2_app;
    [apply no_less_trainable_set| |];
    apply no_less_trainable_opt, no_less_trainable_set_encoder.
Qed.

Lemma no_less_trainable_update_encoder (n : Z) (b : Backbone) :
  Forall2 no_less_trainable (backbone_parameters b)
          (backbone_parameters (update_encoder (unfreeze_last n) b)).
Proof.
  unfold backbone_parameters, update_encoder.
  destruct (attr_encoder b) as [e|] eqn:E;
    cbn [bb_rest attr_encoder attr_transformer opt_encoder_parameters].
  - apply Forall2_app; [apply no_less_trainable_refl|].
    apply Forall2_app; [|apply no_less_trainable_refl].
    apply no_less_trainable_unfreeze_last.
  - apply Forall2_app; [apply no_less_trainable_refl|].
    apply Forall2_app; [constructor|].
    apply no_less_trainable_opt. intros e.
    apply no_less_trainable_unfreeze_last.
Qed.

Lemma unfreeze_backbone_grows nl m :
  Forall2 no_less_trainable
          (backbone_parameters (backbone m))
          (backbone_parameters (backbone (snd (unfreeze_backbone nl m)))).
Proof.
  unfold unfreeze_backbone. destruct nl as [s|n].
  - destruct (get_encoder (backbone m)); [|apply no_less_trainable_refl].
    destruct (String.eqb s "all"); [|apply no_less_trainable_refl].
    apply no_less_trainable_set_backbone.
  - destruct (n <=? 0)%Z; [apply no_less_trainable_refl|].
    destruct (get_encoder (backbone m)); [|apply no_less_trainable_refl].
    apply no_less_trainable_update_encoder.
Qed.

(** X4: Unfreezing never freezes: after [unfreeze_backbone] or
    [unfreeze_backbone_fraction], whether the call returned or raised, the
    backbone has the same parameters in the same order, each of the same
    size and trainable if it was trainable before, and the heads are the
    lists they were. *)
Theorem unfreezing_never_freezes (m : CausalSent) :
  (forall nl,
     let m' := snd (unfreeze_backbone nl m) in
     Forall2 no_less_trainable (backbone_parameters (backbone m))
             (backbone_parameters (backbone m'))
     /\ riesz m' = riesz m /\ sentiment m' = sentiment m)
  /\ (forall f,
        let m' := snd (unfreeze_backbone_fraction f m) in
        Forall2 no_less_trainable (backbone_parameters (backbone m))
                (backbone_parameters (backbone m'))
        /\ riesz m' = riesz m /\ sentiment m' = sentiment m).
Proof.
  split.
  - intros nl m'. split; [apply unfreeze_backbone_grows|].
    apply unfreeze_backbone_heads.
  - intros f m'. split; [|apply unfreeze_backbone_fraction_heads].
    subst m'. unfold unfreeze_backbone_fraction.
    destruct (get_encoder (backbone m)); [|apply no_less_trainable_refl].
    apply unfreeze_backbone_grows.
Qed.

(** *** Unfreezing everything *)

Lemma all_trainable_set_backbone (b : Backbone) :
  all_trainable (backbone_parameters (set_backbone true b)).
Proof. intros p. apply In_set_backbone. Qed.

(** X5: On a backbone that has an encoder and at least one weight,
    [unfreeze_backbone("all")] returns a backbone percentage of 100 and
    leaves every backbone parameter trainable; the model percentage is 100
    as well when the heads are trainable, as they are after the
    constructor. *)
Theorem unfreeze_all_is_full (m : CausalSent) (e : Encoder) :
  get_encoder (backbone m) = Some e ->
  total_numel (backbone_parameters (backbone m)) <> 0%N ->
  all_trainable (riesz m ++ sentiment m) ->
  let m' := with_backbone m (set_backbone true (backbone m)) in
  unfreeze_backbone (NStr "all") m = (Ok (mkReport hundred hundred), m')
  /\ all_trainable (parameters m').
Proof.
  intros He Hw Hheads m'.
  assert (Hb : all_trainable (backbone_parameters (backbone m')))
    by apply all_trainable_set_backbone.
  assert (Hall : all_trainable (parameters m')).
  { unfold parameters. apply all_trainable_app. split; [exact Hb|].
    exact Hheads. }
  assert (Hw' : total_numel (backbone_parameters (backbone m')) <> 0%N)
    by (cbn [m' with_backbone backbone];
        now rewrite total_numel_set_backbone).
  split; [|exact Hall].
  unfold unfreeze_backbone. rewrite He. cbn [String.eqb Ascii.eqb Bool.eqb].
  fold m'. rewrite (percentage_full _ Hw' Hb). cbn [bind].
  unfold report, percentage_trainable_params,
    percentage_trainable_backbone_params.
  rewrite (percentage_full _ Hw' Hb).
  rewrite (percentage_full (parameters m')); [reflexivity| |exact Hall].
  unfold parameters. rewrite total_numel_app. lia.
Qed.

(** *** Errors leave the model alone *)

(** X6: When [unfreeze_backbone] or [unfreeze_backbone_fraction] raises
    anything but [ZeroDivisionError], no flag has been changed. *)
Theorem unfreeze_error_leaves_model (m : CausalSent) (e : exn) :
  e <> ZeroDivisionError ->
  (forall nl, fst (unfreeze_backbone nl m) = Err e ->
              snd (unfreeze_backbone nl m) = m)
  /\ (forall f, fst (unfreeze_backbone_fraction f m) = Err e ->
                snd (unfreeze_backbone_fraction f m) = m).
Proof.
  intros Hne.
  assert (Hnl : forall nl, fst (unfreeze_backbone nl m) = Err e ->
                           snd (unfreeze_backbone nl m) = m).
  { intros nl. unfold unfreeze_backbone. destruct nl as [s|n].
    - destruct (get_encoder (backbone m)); [|reflexivity].
      destruct (String.eqb s "all"); [|reflexivity].
      cbn [fst snd].
      destruct (percentage _) eqn:E; cbn [bind]; intros H.
      + apply report_error in H. congruence.
      + injection H as <-. apply percentage_error in E.
        destruct E. congruence.
    - destruct (n <=? 0)%Z; [reflexivity|].
      destruct (get_encoder (backbone m)); [|reflexivity].
      cbn [fst snd].
      destruct (percentage _) eqn:E; cbn [bind]; intros H.
      + apply report_error in H. congruence.
      + injection H as <-. apply percentage_error in E.
        destruct E. congruence. }
  split; [exact Hnl|].
  intros f. unfold unfreeze_backbone_fraction.
  destruct (get_encoder (backbone m)); [|reflexivity].
  apply Hnl.
Qed.

End MoreUnfreezing.

(** ** Which layers a call unfreezes *)

Section LayerCounts.

Local Open Scope Qc_scope.

Lemma unfreeze_last_from (n : Z) (e : Encoder) :
  unfreeze_last n e
  = mkEncoder (unfreeze_from (length (layer e) - Z.to_nat n) (layer e))
              (enc_rest e).
Proof. reflexivity. Qed.

Lemma unfreeze_from_length (a : nat) (ls : list Layer) :
  length (unfreeze_from a ls) = length ls.
Proof.
  unfold unfreeze_from.
  rewrite length_app, length_map, <- length_app. now rewrite firstn_skipn.
Qed.

Lemma unfreeze_from_nth (a : nat) (ls : list Layer) (i : nat) (l : Layer) :
  nth_error ls i = Some l ->
  nth_error (unfreeze_from a ls) i
  = Some (if (a <=? i)%nat then set_requires_grad true l else l).
Proof.
  intros H. unfold unfreeze_from.
  assert (Hi : (i < length ls)%nat)
    by (apply nth_error_Some; congruence).
  destruct (Nat.leb_spec a i) as [Hle|Hlt].
  - rewrite nth_error_app2 by (rewrite length_firstn; lia).
    rewrite length_firstn, nth_error_map, nth_error_skipn.
    replace (a + (i - Nat.min a (length ls)))%nat with i by lia.
    now rewrite H.
  - rewrite nth_error_app1 by (rewrite length_firstn; lia).
    rewrite nth_error_firstn.
    destruct (Nat.ltb_spec i a); [exact H|lia].
Qed.

Lemma set_requires_grad_twice (v : bool) (l : Layer) :
  set_requires_grad v (set_requires_grad v l) = set_requires_grad v l.
Proof. unfold set_requires_grad. rewrite map_map. reflexivity. Qed.

Lemma unfreeze_from_cons (a : nat) (l : Layer) (ls : list Layer) :
  unfreeze_from (S a) (l :: ls) = l :: unfreeze_from a ls.
Proof. reflexivity. Qed.

Lemma unfreeze_from_0 (ls : list Layer) :
  unfreeze_from 0 ls = map (set_requires_grad true) ls.
Proof. reflexivity. Qed.

(** Unfreezing from two positions is unfreezing from the earlier one. *)
Lemma unfreeze_from_twice (a b : nat) (ls : list Layer) :
  unfreeze_from b (unfreeze_from a ls) = unfreeze_from (Nat.min a b) ls.
Proof.
  revert a b. induction ls as [|l ls IH]; intros a b.
  - destruct a, b; reflexivity.
  - destruct a as [|a], b as [|b]; cbn [Nat.min].
    + rewrite !unfreeze_from_0, map_map.
      apply map_ext. intros x. apply set_requires_grad_twice.
    + rewrite (unfreeze_from_0 (l :: ls)). cbn [map].
      rewrite unfreeze_from_cons, <- (unfreeze_from_0 ls), IH.
      reflexivity.
    + rewrite unfreeze_from_cons, (unfreeze_from_0 (l :: _)). cbn [map].
      rewrite <- (unfreeze_from_0 (unfreeze_from a ls)), IH.
      now rewrite Nat.min_0_r.
    + rewrite !unfreeze_from_cons. now rewrite IH.
Qed.

Lemma unfreeze_last_twice (n k : Z) (e : Encoder) :
  unfreeze_last k (unfreeze_last n e) = unfreeze_last (Z.max n k) e.
Proof.
  rewrite !unfreeze_last_from. cbn [layer enc_rest]. f_equal.
  rewrite unfreeze_from_length, unfreeze_from_twice. f_equal. lia.
Qed.

Lemma unfreeze_last_nonpositive (n : Z) (e : Encoder) :
  (n <= 0)%Z -> unfreeze_last n e = e.
Proof.
  intros H. rewrite unfreeze_last_from. unfold unfreeze_from.
  replace (Z.to_nat n) with 0%nat by lia. rewrite Nat.sub_0_r.
  rewrite firstn_all, skipn_all. cbn [map]. rewrite app_nil_r.
  now destruct e.
Qed.

(** *** Reading and writing the encoder of a backbone *)

Lemma get_encoder_update (f : Encoder -> Encoder) (b : Backbone) :
  get_encoder (update_encoder f b) = option_map f (get_encoder b).
Proof.
  unfold get_encoder, update_encoder.
  destruct (attr_encoder b); cbn; [reflexivity|].
  now destruct (attr_transformer b).
Qed.

Lemma update_encoder_twice (f g : Encoder -> Encoder) (b : Backbone) :
  update_encoder f (update_encoder g b)
  = update_encoder (fun e => f (g e)) b.
Proof.
  unfold update_encoder.
  destruct (attr_encoder b); cbn; [reflexivity|].
  now destruct (attr_transformer b).
Qed.

Lemma update_encoder_ext (f g : Encoder -> Encoder) (b : Backbone) :
  (forall e, f e = g e) -> update_encoder f b = update_encoder g b.
Proof.
  intros H. unfold update_encoder.
  destruct (attr_encoder b); [now rewrite H|].
  destruct (attr_transformer b); cbn; [now rewrite H|reflexivity].
Qed.

Lemma update_encoder_same (f : Encoder -> Encoder) (b : Backbone) :
  (forall e, f e = e) -> update_encoder f b = b.
Proof.
  intros H. unfold update_encoder. destruct b as [c h r [e|] [t|]]; cbn;
    now rewrite ?H.
Qed.

Lemma update_encoder_none (f : Encoder -> Encoder) (b : Backbone) :
  get_encoder b = None -> update_encoder f b = b.
Proof.
  unfold get_encoder, update_encoder.
  destruct b as [c h r [e|] [t|]]; cbn; congruence.
Qed.

(** The model an integer call leaves behind, raised or not. *)
Lemma unfreeze_backbone_int_state (n : Z) (m : CausalSent) :
  snd (unfreeze_backbone (NInt n) m)
  = with_backbone m (update_encoder (unfreeze_last n) (backbone m)).
Proof.
  unfold unfreeze_backbone. destruct (Z.leb_spec n 0).
  - cbn [snd]. rewrite update_encoder_same
      by (intros e; now apply unfreeze_last_nonpositive).
    now destruct m.
  - destruct (get_encoder (backbone m)) eqn:E; [reflexivity|].
    cbn [snd]. rewrite update_encoder_none by exact E. now destruct m.
Qed.

Lemma unfreeze_backbone_int_result (n : Z) (m : CausalSent) :
  (0 < n)%Z ->
  unfreeze_backbone (NInt n) m
  = match get_encoder (backbone m) with
    | None => (Err attribute_error, m)
    | Some _ =>
        let m' := snd (unfreeze_backbone (NInt n) m) in
        (percentage (backbone_parameters (backbone m')) ;;; report m', m')
    end.
Proof.
  intros H. unfold unfreeze_backbone.
  destruct (Z.leb_spec n 0); [lia|].
  now destruct (get_encoder (backbone m)).
Qed.

(** X7: A positive count [n] unfreezes the last [n] entries of the encoder's
    layer list and nothing else: the layers before them, the encoder's
    other parameters and the parameters outside the encoder (the
    embeddings) keep their flags, also when [n] reaches or exceeds the
    number of layers. *)
Theorem unfreeze_backbone_last_layers (n : Z) (m : CausalSent) (e : Encoder) :
  (0 < n)%Z ->
  get_encoder (backbone m) = Some e ->
  let m' := snd (unfreeze_backbone (NInt n) m) in
  exists e',
    get_encoder (backbone m') = Some e'
    /\ enc_rest e' = enc_rest e
    /\ bb_rest (backbone m') = bb_rest (backbone m)
    /\ length (layer e') = length (layer e)
    /\ forall i l,
         nth_error (layer e) i = Some l ->
         nth_error (layer e') i
         = Some (if (Z.of_nat (length (layer e)) - n <=? Z.of_nat i)%Z
                 then set_requires_grad true l else l).
Proof.
  intros Hn He m'. subst m'. rewrite unfreeze_backbone_int_state.
  cbn [with_backbone backbone]. rewrite get_encoder_update, He.
  cbn [option_map]. eexists. split; [reflexivity|].
  rewrite unfreeze_last_from. cbn [layer enc_rest].
  repeat split.
  - unfold update_encoder. now destruct (attr_encoder (backbone m)).
  - apply unfreeze_from_length.
  - intros i l Hl. rewrite (unfreeze_from_nth _ _ _ _ Hl). f_equal.
    assert (Hi : (i < length (layer e))%nat)
      by (apply nth_error_Some; congruence).
    destruct (Nat.leb_spec (length (layer e) - Z.to_nat n) i),
             (Z.leb_spec (Z.of_nat (length (layer e)) - n) (Z.of_nat i));
      try reflexivity; lia.
Qed.

(** X8: Two integer calls in a row leave the model that one call with the
    larger count leaves; with both counts positive the second call also
    returns, or raises, what that one call does. *)
Theorem unfreeze_backbone_twice (n k : Z) (m : CausalSent) :
  snd (unfreeze_backbone (NInt k) (snd (unfreeze_backbone (NInt n) m)))
  = snd (unfreeze_backbone (NInt (Z.max n k)) m)
  /\ ((0 < n)%Z -> (0 < k)%Z ->
      unfreeze_backbone (NInt k) (snd (unfreeze_backbone (NInt n) m))
      = unfreeze_backbone (NInt (Z.max n k)) m).
Proof.
  assert (Hstate :
    snd (unfreeze_backbone (NInt k) (snd (unfreeze_backbone (NInt n) m)))
    = snd (unfreeze_backbone (NInt (Z.max n k)) m)).
  { rewrite !unfreeze_backbone_int_state. unfold with_backbone.
    cbn [backbone sentiment_head_type riesz_head_type backbone_hidden_size
         riesz sentiment training].
    rewrite update_encoder_twice. f_equal.
    apply update_encoder_ext. intros e. apply unfreeze_last_twice. }
  split; [exact Hstate|].
  intros Hn Hk.
  rewrite (unfreeze_backbone_int_result k) by exact Hk.
  rewrite (unfreeze_backbone_int_result (Z.max n k)) by lia.
  rewrite Hstate.
  rewrite (unfreeze_backbone_int_state n).
  cbn [with_backbone backbone]. rewrite get_encoder_update.
  destruct (get_encoder (backbone m)) eqn:E; cbn [option_map];
    [reflexivity|].
  rewrite update_encoder_none by exact E. now destruct m.
Qed.

End LayerCounts.

(** ** How many layers a fraction selects *)

Section FractionCounts.

Local Open Scope Qc_scope.

Lemma quot_nonpos (a : Z) (b : positive) :
  (a <= 0)%Z -> (Z.quot a (Zpos b) <= 0)%Z.
Proof.
  intros H. replace a with (- - a)%Z by lia.
  rewrite Z.quot_opp_l by lia.
  pose proof (Z.quot_pos (- a) (Zpos b)). lia.
Qed.

Lemma int_of_float_lt (x : Qc) (L : Z) :
  (0 < L)%Z -> x < Q2Qc (inject_Z L) -> (int_of_float x < L)%Z.
Proof.
  intros HL H. unfold int_of_float.
  unfold Qclt in H. cbn [this Q2Qc] in H. rewrite Qred_correct in H.
  unfold Qlt in H. cbn [Qnum Qden inject_Z] in H.
  destruct (Z.lt_ge_cases (Qnum x) 0) as [Hneg|Hpos].
  - pose proof (quot_nonpos (Qnum x) (Qden x)). lia.
  - rewrite Z.quot_div_nonneg by lia.
    apply Z.div_lt_upper_bound; lia.
Qed.

Lemma int_of_float_nonpos (x : Qc) : x <= 0 -> (int_of_float x <= 0)%Z.
Proof.
  intros H. unfold int_of_float. apply quot_nonpos.
  unfold Qcle in H. cbn [this Q2Qc] in H. rewrite Qred_correct in H.
  unfold Qle in H. cbn [Qnum Qden] in H. lia.
Qed.

Lemma scaled_below (A f : Qc) :
  0 < A -> f <= Q2Qc (99 # 100) -> A * f < A.
Proof.
  intros HA Hf.
  apply Qcle_lt_trans with (Q2Qc (99 # 100) * A).
  - rewrite (Qcmult_comm A f). apply Qcmult_le_compat_r; [exact Hf|].
    now apply Qclt_le_weak.
  - rewrite <- (Qcmult_1_l A) at 2.
    apply Qcmult_lt_compat_r; [exact HA|reflexivity].
Qed.

Lemma scaled_nonpos (A f : Qc) : 0 <= A -> f <= 0 -> A * f <= 0.
Proof.
  intros HA Hf. rewrite <- (Qcmult_0_l A), (Qcmult_comm A f).
  now apply Qcmult_le_compat_r.
Qed.

(** The model a fraction of at most 0.99 leaves behind. *)
Lemma unfreeze_backbone_fraction_state (f : Qc) (m : CausalSent) (e : Encoder) :
  f <= Q2Qc (99 # 100) ->
  get_encoder (backbone m) = Some e ->
  snd (unfreeze_backbone_fraction f m)
  = with_backbone m
      (update_encoder
         (unfreeze_last
            (int_of_float (Q2Qc (inject_Z (Z.of_nat (length (layer e)))) * f)))
         (backbone m)).
Proof.
  intros Hf He. unfold unfreeze_backbone_fraction.
  rewrite He, threshold_value.
  apply gt_false in Hf. rewrite Hf.
  apply unfreeze_backbone_int_state.
Qed.

(** X9: A fraction of at most 0.99 never reaches the first encoder layer nor
    the embeddings: the count [int(total_backbone_layers * fraction)] stays
    below the number of layers.  A fraction of zero or less changes
    nothing. *)
Theorem unfreeze_backbone_fraction_keeps_first_layer
    (f : Qc) (m : CausalSent) (e : Encoder) (l0 : Layer) (rest : list Layer) :
  f <= Q2Qc (99 # 100) ->
  get_encoder (backbone m) = Some e ->
  layer e = l0 :: rest ->
  let m' := snd (unfreeze_backbone_fraction f m) in
  bb_rest (backbone m') = bb_rest (backbone m)
  /\ (exists e', get_encoder (backbone m') = Some e'
                 /\ length (layer e') = length (layer e)
                 /\ hd_error (layer e') = Some l0)
  /\ (f <= 0 -> m' = m).
Proof.
  intros Hf He Hl m'. subst m'.
  rewrite (unfreeze_backbone_fraction_state f m e Hf He).
  set (len := Z.of_nat (length (layer e))).
  set (c := int_of_float (Q2Qc (inject_Z len) * f)).
  assert (Hlen : (0 < len)%Z) by (subst len; rewrite Hl; cbn [length]; lia).
  assert (Hc : (c < len)%Z).
  { apply int_of_float_lt; [exact Hlen|].
    apply scaled_below; [now apply Qc_of_Z_pos|exact Hf]. }
  cbn [with_backbone backbone]. split; [|split].
  - unfold update_encoder. now destruct (attr_encoder (backbone m)).
  - rewrite get_encoder_update, He. cbn [option_map].
    eexists. split; [reflexivity|].
    rewrite unfreeze_last_from. cbn [layer]. split.
    + apply unfreeze_from_length.
    + assert (H0 : nth_error (layer e) 0 = Some l0) by now rewrite Hl.
      pose proof (unfreeze_from_nth (length (layer e) - Z.to_nat c)
                    (layer e) 0 l0 H0) as Hn.
      destruct (Nat.leb_spec (length (layer e) - Z.to_nat c) 0);
        [lia|].
      destruct (unfreeze_from _ _); [discriminate|exact Hn].
  - intros H0.
    assert (Hc0 : (c <= 0)%Z).
    { apply int_of_float_nonpos, scaled_nonpos; [|exact H0].
      apply Qclt_le_weak. now apply Qc_of_Z_pos. }
    rewrite update_encoder_same
      by (intros e0; now apply unfreeze_last_nonpositive).
    now destruct m.
Qed.

End FractionCounts.

(** ** More on the forward pass *)

Section MoreForward.

Import Forward.

Variables Ids Mask Emb Out : Type.
Variable backbone_forward : Ids -> Mask -> result (Hidden Emb).
Variable riesz_forward : HeadInput Emb -> Out.
Variable sentiment_forward : HeadInput Emb -> Out.

#[local] Abbreviation forward :=
  (forward backbone_forward riesz_forward sentiment_forward).

Lemma index_first_inv (row : list Emb) (x : Emb) :
  index row 0 = Ok x -> Spec.first_position row = Some x.
Proof.
  destruct row as [|y row]; [discriminate|].
  unfold index. cbn [Z.ltb Z.compare].
  destruct (Z.ltb_spec 0 0); [lia|].
  destruct (Z.leb_spec (Z.of_nat (length (y :: row))) 0);
    [cbn [length] in *; lia|].
  cbn. now intros [= ->].
Qed.

Lemma index_last_inv (row : list Emb) (x : Emb) :
  index row (-1) = Ok x -> Spec.last_position row = Some x.
Proof.
  rewrite last_position_nth.
  unfold index. cbn [Z.ltb Z.compare].
  set (len := Z.of_nat (length row)).
  destruct (Z.ltb_spec (len + -1) 0); [discriminate|].
  destruct (Z.leb_spec len (len + -1)); [lia|].
  cbn [orb].
  replace (Z.to_nat (len + -1)) with (length row - 1)%nat by lia.
  destruct (nth_error row (length row - 1)); [|discriminate].
  now intros [= ->].
Qed.

Lemma select_every_inv (f : list Emb -> option Emb) (i : Z) :
  (forall row x, index row i = Ok x -> f row = Some x) ->
  forall (h : Hidden Emb) (v : list Emb),
    select h i = Ok v -> Spec.every f h = Some v.
Proof.
  intros Hf. unfold select.
  induction h as [|row h IH]; intros v H; cbn [mapM] in H.
  - now injection H as <-.
  - destruct (index row i) as [x|] eqn:Ex; [|discriminate].
    cbn [bind] in H.
    destruct (mapM _ h) as [xs|]; [|discriminate].
    injection H as <-. cbn [Spec.every].
    now rewrite (Hf _ _ Ex), (IH xs eq_refl).
Qed.

Lemma pooled_every_inv (cls : BackboneClass) (h : Hidden Emb) (v : list Emb) :
  pooled cls h = Ok v -> Spec.pooled_vectors cls h = Some v.
Proof.
  unfold pooled, Spec.pooled_vectors. destruct cls; [| |discriminate].
  - apply select_every_inv, index_first_inv.
  - apply select_every_inv, index_last_inv.
Qed.

Lemma head_input_pooled cls t (h : Hidden Emb) v :
  in_fcn_linear t = true -> pooled cls h = Ok v ->
  Spec.head_input cls t h = Some (Pooled v).
Proof.
  intros Ht Hp. unfold Spec.head_input. fold (in_fcn_linear t).
  now rewrite Ht, (pooled_every_inv _ _ _ Hp).
Qed.

Lemma head_input_conv cls t (h : Hidden Emb) :
  in_fcn_linear t = false -> String.eqb t "conv" = true ->
  Spec.head_input cls t h = Some (Sequence h).
Proof.
  intros Ht Hc. unfold Spec.head_input. fold (in_fcn_linear t).
  now rewrite Ht, Hc.
Qed.

(** What a head was called on, read back from a successful call. *)
Lemma head_outputs_inv (head : HeadInput Emb -> Out) cls t unsupported
    embedding (real treated control : Hidden Emb) outs :
  (in_fcn_linear t = true ->
   exists e_real e_treated e_control,
     embedding = Some (e_real, e_treated, e_control)
     /\ pooled cls real = Ok e_real
     /\ pooled cls treated = Ok e_treated
     /\ pooled cls control = Ok e_control) ->
  head_outputs head t unsupported embedding real treated control = Ok outs ->
  exists x_real x_treated x_control,
    Spec.head_input cls t real = Some x_real
    /\ Spec.head_input cls t treated = Some x_treated
    /\ Spec.head_input cls t control = Some x_control
    /\ outs = (head x_real, head x_treated, head x_control).
Proof.
  intros Hemb. unfold head_outputs.
  destruct (in_fcn_linear t) eqn:Et.
  - destruct (Hemb eq_refl) as (e1 & e2 & e3 & -> & P1 & P2 & P3).
    intros [= <-]. exists (Pooled e1), (Pooled e2), (Pooled e3).
    repeat split; now apply head_input_pooled.
  - destruct (String.eqb t "conv") eqn:Ec; [|discriminate].
    intros [= <-].
    exists (Sequence real), (Sequence treated), (Sequence control).
    repeat split; now apply head_input_conv.
Qed.

(** Training mode returns only on what the pooling policy defines. *)
Lemma forward_training_inv (self : CausalSent)
    ids_r ids_t ids_c mask_r mask_t mask_c (h_r h_t h_c : Hidden Emb)
    out log :
  let cls := bb_class (backbone self) in
  training self = true ->
  backbone_forward ids_r mask_r = Ok h_r ->
  backbone_forward ids_t mask_t = Ok h_t ->
  backbone_forward ids_c mask_c = Ok h_c ->
  fst (forward self ids_r ids_t ids_c mask_r mask_t mask_c log) = Ok out ->
  exists s_r s_t s_c r_r r_t r_c,
    Spec.head_input cls (sentiment_head_type self) h_r = Some s_r
    /\ Spec.head_input cls (sentiment_head_type self) h_t = Some s_t
    /\ Spec.head_input cls (sentiment_head_type self) h_c = Some s_c
    /\ Spec.head_input cls (riesz_head_type self) h_r = Some r_r
    /\ Spec.head_input cls (riesz_head_type self) h_t = Some r_t
    /\ Spec.head_input cls (riesz_head_type self) h_c = Some r_c
    /\ out = Six (sentiment_forward s_r) (sentiment_forward s_t)
                 (sentiment_forward s_c)
                 (riesz_forward r_r) (riesz_forward r_t) (riesz_forward r_c).
Proof.
  intros cls Htr Br Bt Bc.
  unfold Forward.forward. fold cls. rewrite Htr.
  unfold tbind, call_backbone, lift. rewrite Br, Bt, Bc. cbn [fst].
  set (need := in_fcn_linear (riesz_head_type self)
               || in_fcn_linear (sentiment_head_type self)).
  assert (Hemb : forall embedding,
    (if need
     then e_real <- pooled cls h_r ;;
          e_treated <- pooled cls h_t ;;
          e_control <- pooled cls h_c ;;
          Ok (Some (e_real, e_treated, e_control))
     else Ok None) = Ok embedding ->
    forall t, in_fcn_linear t = true ->
              (t = riesz_head_type self \/ t = sentiment_head_type self) ->
              exists e1 e2 e3, embedding = Some (e1, e2, e3)
                               /\ pooled cls h_r = Ok e1
                               /\ pooled cls h_t = Ok e2
                               /\ pooled cls h_c = Ok e3).
  { intros embedding H t Ht Hor.
    assert (Hneed : need = true).
    { subst need. apply orb_true_iff. destruct Hor as [<-|<-]; auto. }
    rewrite Hneed in H.
    destruct (pooled cls h_r) as [e1|]; [|discriminate].
    destruct (pooled cls h_t) as [e2|]; [|discriminate].
    destruct (pooled cls h_c) as [e3|]; [|discriminate].
    cbn [bind] in H. injection H as <-. now exists e1, e2, e3. }
  destruct (if need then _ else _) as [embedding|] eqn:E; [|discriminate].
  specialize (Hemb embedding eq_refl). cbn [bind].
  destruct (head_outputs riesz_forward _ _ _ _ _ _) as [rz|] eqn:Erz;
    [|discriminate].
  cbn [bind].
  destruct (head_outputs sentiment_forward _ _ _ _ _ _) as [st|] eqn:Est;
    [|discriminate].
  cbn [bind].
  apply (head_outputs_inv riesz_forward cls) in Erz;
    [|intros H; apply (Hemb _ H); now left].
  apply (head_outputs_inv sentiment_forward cls) in Est;
    [|intros H; apply (Hemb _ H); now right].
  destruct Erz as (r_r & r_t & r_c & Rr & Rt & Rc & ->).
  destruct Est as (s_r & s_t & s_c & Sr & St & Sc & ->).
  intros [= <-]. exists s_r, s_t, s_c, r_r, r_t, r_c. repeat split; assumption.
Qed.

(** X10: With the three backbone calls succeeding, training-mode [forward]
    returns exactly when both head types are among [fcn], [linear] and
    [conv] and, if either is pooled, the backbone is DistilBERT or LLaMA
    and no sequence is empty; in every other case it raises. *)
Theorem forward_training_returns_iff (self : CausalSent)
    ids_r ids_t ids_c mask_r mask_t mask_c (h_r h_t h_c : Hidden Emb) log :
  let cls := bb_class (backbone self) in
  training self = true ->
  backbone_forward ids_r mask_r = Ok h_r ->
  backbone_forward ids_t mask_t = Ok h_t ->
  backbone_forward ids_c mask_c = Ok h_c ->
  is_ok (fst (forward self ids_r ids_t ids_c mask_r mask_t mask_c log)) = true
  <-> (exists s_r s_t s_c r_r r_t r_c,
         Spec.head_input cls (sentiment_head_type self) h_r = Some s_r
         /\ Spec.head_input cls (sentiment_head_type self) h_t = Some s_t
         /\ Spec.head_input cls (sentiment_head_type self) h_c = Some s_c
         /\ Spec.head_input cls (riesz_head_type self) h_r = Some r_r
         /\ Spec.head_input cls (riesz_head_type self) h_t = Some r_t
         /\ Spec.head_input cls (riesz_head_type self) h_c = Some r_c).
Proof.
  intros cls Htr Br Bt Bc. split.
  - destruct (fst (forward self ids_r ids_t ids_c mask_r mask_t mask_c log))
      as [out|] eqn:E; [intros _|discriminate].
    destruct (forward_training_inv self _ _ _ _ _ _ _ _ _ _ _
                Htr Br Bt Bc E)
      as (s_r & s_t & s_c & r_r & r_t & r_c & H1 & H2 & H3 & H4 & H5 & H6 & _).
    now exists s_r, s_t, s_c, r_r, r_t, r_c.
  - intros (s_r & s_t & s_c & r_r & r_t & r_c & H1 & H2 & H3 & H4 & H5 & H6).
    now rewrite (forward_training_run _ _ _ _ _ _ _ self _ _ _ _ _ _ _ _ _
                   _ _ _ _ _ _ log Htr Br Bt Bc H1 H2 H3 H4 H5 H6).
Qed.

End MoreForward.

(** ** Inference mode *)

Section InferenceProps.

Import Forward Validation.

Variables Ids Mask Emb Out : Type.
Variable backbone_forward : Ids -> Mask -> result (Hidden Emb).
Variable riesz_forward : HeadInput Emb -> Out.
Variable sentiment_forward : HeadInput Emb -> Out.

#[local] Abbreviation forward :=
  (forward backbone_forward riesz_forward sentiment_forward).

Lemma forward_inference_inv (self : CausalSent)
    ids_r ids_t ids_c mask_r mask_t mask_c (h_r : Hidden Emb) out log :
  training self = false ->
  backbone_forward ids_r mask_r = Ok h_r ->
  fst (forward self ids_r ids_t ids_c mask_r mask_t mask_c log) = Ok out ->
  exists s_r,
    Spec.head_input (bb_class (backbone self)) (sentiment_head_type self) h_r
    = Some s_r
    /\ out = One (sentiment_forward s_r).
Proof.
  intros Htr Br. unfold Forward.forward. rewrite Htr.
  unfold tbind, call_backbone, lift. rewrite Br. cbn [fst].
  destruct (in_fcn_linear (sentiment_head_type self)) eqn:Et.
  - destruct (pooled _ h_r) as [v|] eqn:P; [|discriminate]. cbn [bind].
    intros [= <-]. exists (Pooled v).
    split; [now apply head_input_pooled|reflexivity].
  - destruct (String.eqb (sentiment_head_type self) "conv") eqn:Ec;
      [|discriminate].
    cbn [bind]. intros [= <-]. exists (Sequence h_r).
    split; [now apply head_input_conv|reflexivity].
Qed.

(** X11: In inference mode, with the backbone call succeeding, [forward] returns
    exactly when the sentiment head type is among [fcn], [linear] and
    [conv] and, if it is pooled, the backbone is DistilBERT or LLaMA and
    no sequence is empty.  The Riesz head, its type and the treated and
    control arguments have no part in the call: any other Riesz head and
    any other such arguments give the same result and the same backbone
    calls. *)
Theorem forward_inference_returns_iff (self : CausalSent)
    ids_r ids_t ids_c mask_r mask_t mask_c (h_r : Hidden Emb) log :
  training self = false ->
  backbone_forward ids_r mask_r = Ok h_r ->
  (is_ok (fst (forward self ids_r ids_t ids_c mask_r mask_t mask_c log)) = true
   <-> exists s_r,
         Spec.head_input (bb_class (backbone self))
                         (sentiment_head_type self) h_r = Some s_r)
  /\ (forall riesz_type' (riesz_forward' : HeadInput Emb -> Out)
             ids_t' ids_c' mask_t' mask_c',
        Forward.forward backbone_forward riesz_forward' sentiment_forward
          (mkCausalSent (sentiment_head_type self) riesz_type'
                        (backbone self) (backbone_hidden_size self)
                        (riesz self) (sentiment self) false)
          ids_r ids_t' ids_c' mask_r mask_t' mask_c' log
        = forward self ids_r ids_t ids_c mask_r mask_t mask_c log).
Proof.
  intros Htr Br. split; [split|].
  - destruct (fst (forward self ids_r ids_t ids_c mask_r mask_t mask_c log))
      as [out|] eqn:E; [intros _|discriminate].
    destruct (forward_inference_inv self _ _ _ _ _ _ _ _ _ Htr Br E)
      as (s_r & H & _).
    now exists s_r.
  - intros (s_r & H).
    now rewrite (forward_inference_run _ _ _ _ _ _ _ self _ _ _ _ _ _ _ _
                   log Htr Br H).
  - intros. unfold Forward.forward. cbn [training]. now rewrite Htr.
Qed.

(** *** The same real input in both modes *)

Lemma first_position_defined (row row' : list Emb) :
  length row = length row' ->
  Spec.first_position row <> None -> Spec.first_position row' <> None.
Proof. destruct row, row'; cbn; congruence. Qed.

Lemma last_position_nonempty (row : list Emb) :
  row <> [] -> Spec.last_position row <> None.
Proof.
  induction row as [|x [|y rest] IH]; [congruence|discriminate|].
  intros _. apply IH. discriminate.
Qed.

Lemma last_position_defined (row row' : list Emb) :
  length row = length row' ->
  Spec.last_position row <> None -> Spec.last_position row' <> None.
Proof.
  intros Hlen H. apply last_position_nonempty.
  destruct row' as [|y rest]; [|discriminate].
  destruct row; [now cbn in H|discriminate].
Qed.

Lemma every_same_shape (f : list Emb -> option Emb) :
  (forall row row',
      length row = length row' -> f row <> None -> f row' <> None) ->
  forall h h' : Hidden Emb,
    map (@length Emb) h = map (@length Emb) h' ->
    Spec.every f h <> None -> Spec.every f h' <> None.
Proof.
  intros Hf. induction h as [|row h IH]; intros [|row' h'] Hlen;
    try discriminate.
  injection Hlen as Hrow Hrest. cbn [Spec.every].
  destruct (f row) eqn:E; [|congruence].
  destruct (Spec.every f h) eqn:Eh; [|congruence]. intros _.
  assert (H1 : f row' <> None) by (apply (Hf row); congruence).
  assert (H2 : Spec.every f h' <> None) by (apply IH; congruence).
  destruct (f row'); [|congruence].
  destruct (Spec.every f h'); [discriminate|congruence].
Qed.

(** Whether a head gets an input depends on the shape of the hidden
    states only: the number of positions of each example. *)
Lemma head_input_same_shape cls t (h h' : Hidden Emb) s :
  map (@length Emb) h = map (@length Emb) h' ->
  Spec.head_input cls t h = Some s ->
  exists s', Spec.head_input cls t h' = Some s'.
Proof.
  intros Hlen. unfold Spec.head_input.
  destruct (String.eqb t "fcn" || String.eqb t "linear").
  - assert (Hp : Spec.pooled_vectors cls h <> None ->
                 Spec.pooled_vectors cls h' <> None).
    { unfold Spec.pooled_vectors. destruct cls; [| |congruence].
      - apply every_same_shape; [apply first_position_defined|exact Hlen].
      - apply every_same_shape; [apply last_position_defined|exact Hlen]. }
    destruct (Spec.pooled_vectors cls h); [|discriminate]. intros _.
    destruct (Spec.pooled_vectors cls h'); [now eexists|].
    exfalso. now apply Hp.
  - destruct (String.eqb t "conv"); [now eexists|discriminate].
Qed.

(** The backbone and the heads as they compute in evaluation mode. *)
Variable backbone_eval : Ids -> Mask -> result (Hidden Emb).
Variable riesz_eval : HeadInput Emb -> Out.
Variable sentiment_eval : HeadInput Emb -> Out.

(** X12: Both modes select the sentiment head's input for the real text by
    the same rule.  Let [forward] in training mode return its six outputs,
    backbone and heads computing as they do in training mode, and let the
    backbone in evaluation mode return, for the same real input, hidden
    states [h_e] with as many positions per example as in training mode.
    Then the first of the six outputs is the training-mode sentiment
    head's value on the input the rule selects from the training-mode
    hidden states, and [forward] in evaluation mode returns, after one
    backbone call and whatever its treated and control arguments, the
    evaluation-mode sentiment head's value on the input the same rule
    selects from [h_e]; the two inputs are the same when the hidden states
    are.  The values themselves may differ: the heads and the backbone
    compute differently in the two modes. *)
Theorem forward_sentiment_input_in_both_modes (self : CausalSent)
    ids_r ids_t ids_c mask_r mask_t mask_c (h_r h_t h_c h_e : Hidden Emb)
    o1 o2 o3 o4 o5 o6 log :
  let select :=
    Spec.head_input (bb_class (backbone self)) (sentiment_head_type self) in
  training self = true ->
  backbone_forward ids_r mask_r = Ok h_r ->
  backbone_forward ids_t mask_t = Ok h_t ->
  backbone_forward ids_c mask_c = Ok h_c ->
  fst (forward self ids_r ids_t ids_c mask_r mask_t mask_c log)
  = Ok (Six o1 o2 o3 o4 o5 o6) ->
  backbone_eval ids_r mask_r = Ok h_e ->
  map (@length Emb) h_e = map (@length Emb) h_r ->
  exists s_r s_e,
    select h_r = Some s_r
    /\ select h_e = Some s_e
    /\ o1 = sentiment_forward s_r
    /\ (h_e = h_r -> s_e = s_r)
    /\ forall ids_t' ids_c' mask_t' mask_c' log',
         Forward.forward backbone_eval riesz_eval sentiment_eval
           (eval_mode self) ids_r ids_t' ids_c' mask_r mask_t' mask_c' log'
         = (Ok (One (sentiment_eval s_e)), log' ++ [(ids_r, mask_r)]).
Proof.
  intros select Htr Br Bt Bc H Be Hshape.
  destruct (forward_training_inv _ _ _ _ _ _ _ self _ _ _ _ _ _ _ _ _ _ _
              Htr Br Bt Bc H)
    as (s_r & s_t & s_c & r_r & r_t & r_c & Sr & _ & _ & _ & _ & _ & E).
  injection E as -> _ _ _ _ _.
  destruct (head_input_same_shape _ _ h_r h_e s_r (eq_sym Hshape) Sr)
    as [s_e Se].
  exists s_r, s_e. subst select. repeat split; try assumption.
  - intros ->. congruence.
  - intros ids_t' ids_c' mask_t' mask_c' log'.
    now apply (forward_inference_run _ _ _ _ _ _ _ (eval_mode self)
                 _ _ _ _ _ _ h_e).
Qed.

End InferenceProps.

(** ** The validation pass *)

Section ValidationProps.

Import Tensor Forward Train Validation.

Variables Ids Mask Emb : Type.
Variable backbone_forward :
  option Ids -> option Mask -> result (Hidden Emb).
Variable riesz_forward : HeadInput Emb -> tensor.
Variable sentiment_forward : HeadInput Emb -> tensor.
Variable sigmoid : Qc -> Qc.

#[local] Abbreviation validate_batches :=
  (validate_batches backbone_forward riesz_forward sentiment_forward sigmoid).

(** One batch, one backbone call, returned or raised. *)
Lemma validate_batch_calls (model : CausalSent) (batch : Batch Ids Mask) log :
  training model = false ->
  snd (validate_batch backbone_forward riesz_forward sentiment_forward
         sigmoid model batch log)
  = log ++ [real_call batch].
Proof.
  intros Htr. unfold validate_batch, Forward.forward. rewrite Htr.
  unfold tbind, call_backbone, lift, ret, real_call.
  destruct (backbone_forward _ _); [|reflexivity].
  destruct (_ <- _ ;; _)%py as [[| ]|]; reflexivity.
Qed.

Lemma validate_batches_calls (model : CausalSent)
    (batches : list (Batch Ids Mask)) log :
  training model = false ->
  exists k res log',
    validate_batches model batches log = (res, log')
    /\ log' = log ++ map (@real_call Ids Mask) (firstn k batches)
    /\ (is_ok res = true -> log' = log ++ map (@real_call Ids Mask) batches).
Proof.
  intros Htr. revert log.
  induction batches as [|batch rest IH]; intros log.
  - exists 0%nat, (Ok ([], [])), log. cbn [firstn map].
    rewrite app_nil_r. repeat split.
  - cbn [Validation.validate_batches]. unfold tbind.
    pose proof (validate_batch_calls model batch log Htr) as Hc.
    destruct (validate_batch _ _ _ _ model batch log) as [[tp|e] log1].
    + cbn [snd] in Hc. subst log1.
      destruct (IH (log ++ [real_call batch]))
        as (k & res & log2 & E & Hk & Hok).
      rewrite E. subst log2.
      destruct res as [tps|e].
      * eexists (S k), _, _. split; [reflexivity|]. cbn [firstn map]. split.
        -- now rewrite <- app_assoc.
        -- intros _. rewrite (Hok eq_refl). now rewrite <- app_assoc.
      * eexists (S k), _, _. split; [reflexivity|]. cbn [firstn map].
        split; [now rewrite <- app_assoc|discriminate].
    + cbn [snd] in Hc. subst log1.
      eexists 1%nat, _, _. split; [reflexivity|]. cbn [firstn map].
      split; [reflexivity|discriminate].
Qed.

(** X13: The validation pass calls the backbone once for every batch it gets
    to, in order, each time on the real ids and mask of the batch: the
    [None] it passes for the treated and control inputs never reaches the
    backbone.  When the pass returns there is one call for every batch of
    the loader. *)
Theorem validation_calls_backbone_on_real_inputs (model : CausalSent)
    (val_loader : list (Batch Ids Mask)) :
  let r := validation backbone_forward riesz_forward sentiment_forward
             sigmoid model val_loader in
  (exists k, snd r = map (@real_call Ids Mask) (firstn k val_loader))
  /\ (is_ok (fst r) = true -> snd r = map (@real_call Ids Mask) val_loader)
  /\ Forall (fun call => fst call <> None /\ snd call <> None) (snd r).
Proof.
  intros r. subst r. unfold validation.
  destruct (validate_batches_calls (eval_mode model) val_loader [] eq_refl)
    as (k & res & log' & -> & Hk & Hok).
  cbn [app fst snd] in *. split; [now exists k|]. split; [exact Hok|].
  rewrite Hk. apply Forall_forall. intros call Hin.
  apply in_map_iff in Hin. destruct Hin as (b & <- & _).
  split; discriminate.
Qed.

End ValidationProps.

(** ** More on the training loop *)

Section MoreLoop.

Import Tensor Forward Train.
Local Open Scope Qc_scope.

Variables Ids Mask Emb Weights : Type.
Variable backbone_forward : Weights -> Ids -> Mask -> result (Hidden Emb).
Variable riesz_forward : Weights -> HeadInput Emb -> tensor.
Variable sentiment_forward : Weights -> HeadInput Emb -> tensor.
Variable sigmoid : Qc -> Qc.
Variable bce_loss : tensor -> tensor -> result pyfloat.
Variable args : Args.
Variable optimizer_step :
  Weights -> Batch Ids Mask -> option Accumulators -> Weights.
Variable train_loader : nat -> list (Batch Ids Mask).

#[local] Abbreviation train_batch :=
  (train_batch backbone_forward riesz_forward sentiment_forward sigmoid
               bce_loss args optimizer_step).
#[local] Abbreviation train_batches :=
  (train_batches backbone_forward riesz_forward sentiment_forward sigmoid
                 bce_loss args optimizer_step).
#[local] Abbreviation train_epochs :=
  (train_epochs backbone_forward riesz_forward sentiment_forward sigmoid
                bce_loss args optimizer_step train_loader).
#[local] Abbreviation training_loop :=
  (training_loop backbone_forward riesz_forward sentiment_forward sigmoid
                 bce_loss args optimizer_step train_loader).

(** *** The per-batch estimate *)

Lemma products_with_outcome (est : bool) (r s t : tensor) :
  Spec.aligned (r, s, t) ->
  map2 Qcmult r (if est then map sigmoid s else t)
  = map (fun ex => Spec.ex_riesz ex * Spec.outcome sigmoid est ex)
        (Spec.examples_of r s t).
Proof.
  intros [Hs Ht]. revert s t Hs Ht.
  induction r as [|x r IH]; intros [|y s] [|z t] Hs Ht; try discriminate.
  - now destruct est.
  - injection Hs as Hs. injection Ht as Ht.
    specialize (IH s t Hs Ht).
    destruct est; cbn [map map2 Spec.examples_of]; f_equal; exact IH.
Qed.

(** X14: The per-batch estimate of line 135 is, for either value of the flag,
    the mean over the examples of the batch of Riesz-real output times
    outcome: sigmoid of the logit with the flag set, the target with the
    flag cleared. *)
Theorem batch_tau_hat_is_mean (r s t : tensor) (n : nat) :
  length r = S n -> length s = S n -> length t = S n ->
  batch_tau_hat sigmoid args r s t
  = Ok (Fin (Spec.tau_hat sigmoid (estimate_targets_for_ate args)
                          (Spec.examples_of r s t))).
Proof.
  intros Hr Hs Ht.
  assert (Hal : Spec.aligned (r, s, t)) by (split; congruence).
  unfold batch_tau_hat, mul.
  rewrite elementwise_same_length
    by (destruct (estimate_targets_for_ate args);
        rewrite ?length_map; congruence).
  cbn [bind]. rewrite (products_with_outcome _ r s t Hal).
  rewrite mean_average; [reflexivity|].
  destruct r, s, t; discriminate.
Qed.

(** On the first batch of a run, with the flag set, the running estimate
    is the per-batch estimate. *)
Theorem first_running_estimate_is_batch_estimate (r s t : tensor) :
  running_ate args = true ->
  estimate_targets_for_ate args = true ->
  compute_tau_hat sigmoid args None r s t
  = (tau <- batch_tau_hat sigmoid args r s t ;;
     Ok (Some (mkAccumulators [r] [map sigmoid s] [t]), tau)).
Proof.
  intros Hrun Hest. unfold compute_tau_hat, running_tau_hat, batch_tau_hat.
  rewrite Hrun, Hest. unfold accumulate, cat.
  cbn [epoch_riesz_outputs epoch_sentiment_outputs epoch_targets app concat].
  now rewrite !app_nil_r.
Qed.

(** *** What the loop does to the accumulators *)

Lemma compute_tau_hat_accumulators acc r s t acc' tau :
  compute_tau_hat sigmoid args acc r s t = Ok (acc', tau) ->
  acc' = (if running_ate args then Some (accumulate sigmoid acc r s t)
          else acc).
Proof.
  unfold compute_tau_hat. destruct (running_ate args).
  - destruct (running_tau_hat _ _); [|discriminate]. now intros [= <- _].
  - destruct (batch_tau_hat _ _ _ _ _); [|discriminate]. now intros [= <- _].
Qed.

Lemma accumulated_targets_accumulate acc r s t :
  accumulated_targets (Some (accumulate sigmoid acc r s t))
  = accumulated_targets acc ++ [t].
Proof. now destruct acc. Qed.

Lemma train_batch_accumulators model epoch i st batch st' step :
  train_batch model epoch i st batch = Ok (st', step) ->
  (running_ate args = true ->
   accumulated_targets (accumulators st')
   = accumulated_targets (accumulators st) ++ [targets batch])
  /\ (running_ate args = false -> accumulators st' = accumulators st).
Proof.
  unfold Train.train_batch.
  destruct (fst (forward _ _ _ _ _ _ _ _ _ _ _)) as [[sr stt sc rr rt rc|o]|];
    cbn [bind]; try discriminate.
  unfold batch_step.
  destruct (compute_tau_hat _ _ _ _ _ _) as [[acc' tau]|] eqn:E;
    [|discriminate].
  cbn [bind].
  destruct (compute_riesz_loss _ _ _); [|discriminate]. cbn [bind].
  destruct (compute_reg_loss _ _ _); [|discriminate]. cbn [bind].
  destruct (bce_loss _ _); [|discriminate]. cbn [bind].
  intros [= <- _]. cbn [accumulators].
  apply compute_tau_hat_accumulators in E. subst acc'.
  split; intros ->; [apply accumulated_targets_accumulate|reflexivity].
Qed.

Lemma train_batches_accumulators model epoch batches :
  forall i st st' steps e,
    train_batches model epoch i st batches = (st', steps, e) ->
    (running_ate args = true ->
     accumulated_targets (accumulators st')
     = accumulated_targets (accumulators st)
       ++ map (@targets Ids Mask) (firstn (length steps) batches))
    /\ (running_ate args = false -> accumulators st' = accumulators st)
    /\ (length steps <= length batches)%nat
    /\ (e = None -> length steps = length batches).
Proof.
  induction batches as [|batch rest IH]; intros i st st' steps e H;
    cbn [Train.train_batches] in H.
  - injection H as <- <- <-. cbn. rewrite app_nil_r. repeat split; lia.
  - destruct (train_batch model epoch i st batch) as [[st1 step]|e1] eqn:E1.
    + destruct (train_batches model epoch (S i) st1 rest)
        as [[st2 steps2] e2] eqn:E2.
      injection H as <- <- <-.
      destruct (IH _ _ _ _ _ E2) as (Hrun & Hoff & Hle & Hlen).
      destruct (train_batch_accumulators _ _ _ _ _ _ _ E1) as [Hrun1 Hoff1].
      cbn [length firstn map]. repeat split.
      * intros Hr. rewrite (Hrun Hr), (Hrun1 Hr), <- app_assoc. reflexivity.
      * intros Hr. now rewrite (Hoff Hr), (Hoff1 Hr).
      * lia.
      * intros He. now rewrite (Hlen He).
    + injection H as <- <- <-. cbn. rewrite app_nil_r.
      repeat split; try lia. discriminate.
Qed.

Lemma train_epochs_accumulators model n :
  forall epoch st st' steps e,
    train_epochs model n epoch st = (st', steps, e) ->
    (running_ate args = true ->
     accumulated_targets (accumulators st')
     = accumulated_targets (accumulators st)
       ++ map (@targets Ids Mask)
              (firstn (length steps) (flat_map train_loader (seq epoch n))))
    /\ (running_ate args = false -> accumulators st' = accumulators st)
    /\ (e = None ->
        length steps = length (flat_map train_loader (seq epoch n))).
Proof.
  induction n as [|n IH]; intros epoch st st' steps e H;
    cbn [Train.train_epochs] in H.
  - injection H as <- <- <-. cbn. rewrite app_nil_r. repeat split.
  - destruct (train_batches _ epoch 0 _ (train_loader epoch))
      as [[st1 steps1] e1] eqn:E1.
    destruct (train_batches_accumulators _ _ _ _ _ _ _ _ E1)
      as (Hrun1 & Hoff1 & Hle1 & Hlen1).
    cbn [accumulators] in Hrun1, Hoff1.
    cbn [seq flat_map].
    destruct e1 as [e1|].
    + injection H as <- <- <-. repeat split.
      * intros Hr. rewrite (Hrun1 Hr). do 2 f_equal.
        rewrite firstn_app.
        replace (length steps1 - length (train_loader epoch))%nat
          with 0%nat by lia.
        now rewrite firstn_O, app_nil_r.
      * exact Hoff1.
      * discriminate.
    + destruct (train_epochs model n (S epoch) st1) as [[st2 steps2] e2] eqn:E2.
      injection H as <- <- <-.
      destruct (IH _ _ _ _ _ E2) as (Hrun2 & Hoff2 & Hlen2).
      specialize (Hlen1 eq_refl).
      rewrite !length_app. repeat split.
      * intros Hr. rewrite (Hrun2 Hr), (Hrun1 Hr), <- app_assoc.
        f_equal. rewrite <- map_app. f_equal.
        rewrite Hlen1 at 2. rewrite firstn_app_2.
        now rewrite Hlen1, firstn_all.
      * intros Hr. now rewrite (Hoff2 Hr), (Hoff1 Hr).
      * intros He. now rewrite Hlen1, (Hlen2 He).
Qed.


(** X16: In per-batch mode the loop never creates the accumulators. *)
Theorem per_batch_mode_keeps_no_history (model : CausalSent) (w0 : Weights) :
  running_ate args = false ->
  accumulators (fst (fst (training_loop model w0))) = None.
Proof.
  intros Hoff. unfold Train.training_loop.
  destruct (train_epochs model (epochs args) 0 _) as [[st' steps] e] eqn:E.
  destruct (train_epochs_accumulators _ _ _ _ _ _ _ E) as (_ & H & _).
  exact (H Hoff).
Qed.

End MoreLoop.

(** ** Calling the constructor by keyword *)

Section KeywordProps.

Variable from_pretrained : BackboneClass -> string -> result Backbone.
Variable RieszHead : Z -> Z -> string -> result (list Param).
Variable SentimentHead : Z -> Z -> string -> result (list Param).

#[local] Abbreviation new := (new from_pretrained RieszHead SentimentHead).
#[local] Abbreviation init := (init from_pretrained RieszHead SentimentHead).

Lemma check_keywords_unknown (sig : signature value) kwargs k v :
  In (k, v) kwargs -> has_param sig k = false ->
  exists msg, check_keywords sig kwargs = Err (TypeError msg).
Proof.
  intros Hin Hk. induction kwargs as [|[k0 v0] rest IH]; [contradiction|].
  cbn [check_keywords]. destruct (has_param sig k0) eqn:E.
  - destruct Hin as [[= -> ->]|Hin]; [congruence|]. now apply IH.
  - now eexists.
Qed.

Lemma check_keywords_known (sig : signature value) kwargs :
  (forall k v, In (k, v) kwargs -> has_param sig k = true) ->
  check_keywords sig kwargs = Ok tt.
Proof.
  induction kwargs as [|[k0 v0] rest IH]; intros H; [reflexivity|].
  cbn [check_keywords]. rewrite (H k0 v0 (or_introl eq_refl)).
  apply IH. intros k v Hin. apply (H k v). now right.
Qed.

Lemma has_param_init (k : string) :
  has_param init_signature k = false
  <-> (k <> "pretrained_model_name" /\ k <> "sentiment_head_type"
       /\ k <> "riesz_head_type").
Proof.
  unfold has_param, init_signature. cbn [existsb fst].
  rewrite !orb_false_iff, !String.eqb_neq. intuition congruence.
Qed.

(** X17: The constructor takes three keywords and no others.  A call that
    passes any other keyword raises [TypeError] before anything is loaded;
    a call without [pretrained_model_name] raises [TypeError]; otherwise
    the keywords may come in any order and a head type that is left out is
    [fcn]. *)
Theorem new_binds_keywords (kwargs : list (string * value)) :
  (forall k v,
     In (k, v) kwargs ->
     k <> "pretrained_model_name" -> k <> "sentiment_head_type" ->
     k <> "riesz_head_type" ->
     exists msg, new kwargs = Err (TypeError msg))
  /\ ((forall k v, In (k, v) kwargs -> has_param init_signature k = true) ->
      (lookup kwargs "pretrained_model_name" = None ->
       new kwargs
       = Err (TypeError "missing required argument pretrained_model_name"))
      /\ (forall name st rt,
            lookup kwargs "pretrained_model_name" = Some (VStr name) ->
            lookup kwargs "sentiment_head_type" = option_map VStr st ->
            lookup kwargs "riesz_head_type" = option_map VStr rt ->
            new kwargs
            = init name
                   (match st with Some s => s | None => "fcn" end)
                   (match rt with Some s => s | None => "fcn" end))).
Proof.
  split.
  - intros k v Hin H1 H2 H3.
    destruct (check_keywords_unknown init_signature kwargs k v Hin)
      as [msg Hmsg]; [now apply has_param_init|].
    exists msg. unfold Construct.new, bind_keywords. now rewrite Hmsg.
  - intros Hknown. unfold Construct.new, bind_keywords.
    rewrite (check_keywords_known _ _ Hknown). cbn [bind].
    unfold init_signature. cbn [fill]. split.
    + now intros ->.
    + intros name st rt -> -> ->.
      destruct st, rt; reflexivity.
Qed.

End KeywordProps.

(** ** The further properties on the small models *)

Section MoreExamples.

Import Examples Tensor Train Forward Validation.

(** An unsupported name, and DistilBERT by its name. *)
Lemma init_backbone_family_witness :
  init from_pretrained one_tensor_head one_tensor_head "gpt2" "fcn" "fcn"
  = Err (ValueError "[ERROR] Unsupported model name.")
  /\ bb_class (backbone (model_of distilbert)) = DistilBertModel.
Proof.
  split.
  - apply (proj1 (init_backbone_family from_pretrained one_tensor_head
                    one_tensor_head "gpt2" "fcn" "fcn")); reflexivity.
  - exact (proj1 (proj2 (init_backbone_family from_pretrained one_tensor_head
                           one_tensor_head "distilbert-base-uncased"
                           "fcn" "fcn")
                        (model_of distilbert) eq_refl)).
Defined.

(** Ten trainable weights, those of the two heads. *)
Lemma init_trainable_share_witness :
  trainable_numel (parameters (model_of distilbert))
  = total_numel (riesz (model_of distilbert) ++ sentiment (model_of distilbert)).
Proof.
  exact (proj1 (init_trainable_share from_pretrained one_tensor_head
                  one_tensor_head "distilbert-base-uncased" "fcn" "fcn"
                  (model_of distilbert) eq_refl)).
Defined.

Lemma heads_stay_trainable_witness :
  all_trainable
    (riesz (snd (unfreeze_backbone (NInt 2) (model_of distilbert)))
     ++ sentiment (snd (unfreeze_backbone (NInt 2) (model_of distilbert)))).
Proof.
  apply (heads_stay_trainable from_pretrained one_tensor_head one_tensor_head).
  apply reach_unfreeze.
  apply (reach_init from_pretrained one_tensor_head one_tensor_head
           "distilbert-base-uncased" "fcn" "fcn").
  reflexivity.
Defined.

Lemma unfreeze_all_is_full_witness :
  unfreeze_backbone (NStr "all") (model_of distilbert)
  = (Ok (mkReport hundred hundred),
     with_backbone (model_of distilbert) (set_backbone true distilbert))
  /\ all_trainable
       (parameters
          (with_backbone (model_of distilbert) (set_backbone true distilbert))).
Proof.
  apply (unfreeze_all_is_full (model_of distilbert)
           (mkEncoder (repeat block 6) [])).
  - reflexivity.
  - discriminate.
  - intros p [<-|[<-|[]]]; reflexivity.
Defined.

(** A backbone shaped like LLaMA refuses a positive count untouched. *)
Lemma unfreeze_error_leaves_model_witness :
  snd (unfreeze_backbone (NInt 3) (model_of llama)) = model_of llama.
Proof.
  apply (proj1 (unfreeze_error_leaves_model (model_of llama) attribute_error
                  ltac:(discriminate))).
  reflexivity.
Defined.

(** The last two of six layers. *)
Lemma unfreeze_backbone_last_layers_witness :
  exists e',
    get_encoder (backbone (snd (unfreeze_backbone (NInt 2) (model_of distilbert))))
    = Some e'
    /\ enc_rest e' = []
    /\ bb_rest (backbone (snd (unfreeze_backbone (NInt 2) (model_of distilbert))))
       = [frozen 8]
    /\ length (layer e') = 6%nat
    /\ forall i l,
         nth_error (repeat block 6) i = Some l ->
         nth_error (layer e') i
         = Some (if (6 - 2 <=? Z.of_nat i)%Z
                 then set_requires_grad true l else l).
Proof.
  apply (unfreeze_backbone_last_layers 2 (model_of distilbert)
           (mkEncoder (repeat block 6) [])).
  - reflexivity.
  - reflexivity.
Defined.

Lemma unfreeze_backbone_twice_witness :
  unfreeze_backbone (NInt 4) (snd (unfreeze_backbone (NInt 2) (model_of distilbert)))
  = unfreeze_backbone (NInt 4) (model_of distilbert).
Proof.
  apply (proj2 (unfreeze_backbone_twice 2 4 (model_of distilbert)));
    reflexivity.
Defined.

(** Half of six layers. *)
Lemma unfreeze_backbone_fraction_keeps_first_layer_witness :
  let m' := snd (unfreeze_backbone_fraction half (model_of distilbert)) in
  bb_rest (backbone m') = [frozen 8]
  /\ (exists e', get_encoder (backbone m') = Some e'
                 /\ length (layer e') = 6%nat
                 /\ hd_error (layer e') = Some block).
Proof.
  intros m'.
  destruct (unfreeze_backbone_fraction_keeps_first_layer
              half (model_of distilbert) (mkEncoder (repeat block 6) [])
              block (repeat block 5))
    as (H1 & H2 & _).
  - vm_compute. discriminate.
  - reflexivity.
  - reflexivity.
  - split; [exact H1|exact H2].
Defined.

End MoreExamples.

Section MoreForwardExamples.

Import Examples Forward Validation.
Local Open Scope nat_scope.

(** A sentiment head of type [fcn] next to a Riesz head of type [conv]
    over DistilBERT, three positions per sequence. *)
Lemma forward_training_returns_iff_witness :
  is_ok (fst (forward three_positions echo echo mixed_heads
                10 20 30 tt tt tt []))
  = true.
Proof.
  apply (proj2 (forward_training_returns_iff nat unit nat (HeadInput nat)
                  three_positions echo echo mixed_heads 10 20 30 tt tt tt
                  [[10; 11; 12]] [[20; 21; 22]] [[30; 31; 32]] []
                  eq_refl eq_refl eq_refl eq_refl)).
  exists (Pooled [10]), (Pooled [20]), (Pooled [30]),
         (Sequence [[10; 11; 12]]), (Sequence [[20; 21; 22]]),
         (Sequence [[30; 31; 32]]).
  repeat split.
Defined.

Lemma forward_inference_returns_iff_witness :
  is_ok (fst (forward three_positions echo echo (in_eval_mode mixed_heads)
                10 20 30 tt tt tt []))
  = true.
Proof.
  apply (proj2 (proj1 (forward_inference_returns_iff nat unit nat
                         (HeadInput nat) three_positions echo echo
                         (in_eval_mode mixed_heads) 10 20 30 tt tt tt
                         [[10; 11; 12]] [] eq_refl eq_refl))).
  now exists (Pooled [10]).
Defined.

(** Training mode and evaluation mode with different numbers: the
    backbone of evaluation mode embeds the same three positions one
    higher. *)
Lemma forward_sentiment_input_in_both_modes_witness :
  exists s_r s_e,
    Spec.head_input DistilBertModel "fcn" [[10; 11; 12]] = Some s_r
    /\ Spec.head_input DistilBertModel "fcn" [[11; 12; 13]] = Some s_e
    /\ Pooled [10] = echo s_r
    /\ ([[11; 12; 13]] = [[10; 11; 12]] -> s_e = s_r)
    /\ forall ids_t' ids_c' mask_t' mask_c' log',
         forward (fun ids mask => three_positions (S ids) mask) echo echo
           (eval_mode mixed_heads) 10 ids_t' ids_c' tt mask_t' mask_c' log'
         = (Ok (One (echo s_e)), log' ++ [(10, tt)]).
Proof.
  apply (forward_sentiment_input_in_both_modes nat unit nat (HeadInput nat)
           three_positions echo echo
           (fun ids mask => three_positions (S ids) mask) echo echo
           mixed_heads 10 20 30 tt tt tt
           [[10; 11; 12]] [[20; 21; 22]] [[30; 31; 32]] [[11; 12; 13]]
           (Pooled [10]) (Pooled [20]) (Pooled [30])
           (Sequence [[10; 11; 12]]) (Sequence [[20; 21; 22]])
           (Sequence [[30; 31; 32]]) []);
    reflexivity.
Defined.

End MoreForwardExamples.

Section MoreLoopExamples.

Import Examples Tensor Train Forward Validation.

(** Two validation batches, two backbone calls, each on a real input. *)
Lemma validation_calls_backbone_on_real_inputs_witness :
  snd (validation emit_some (read tt) (read tt) flat_sigmoid
         (model_of distilbert) two_batches)
  = map (@real_call Qc unit) two_batches.
Proof.
  apply (proj1 (proj2 (validation_calls_backbone_on_real_inputs
                         Qc unit Qc emit_some (read tt) (read tt)
                         flat_sigmoid (model_of distilbert) two_batches))).
  reflexivity.
Defined.

Lemma batch_tau_hat_is_mean_witness :
  batch_tau_hat flat_sigmoid per_batch [Q2Qc 3] [Q2Qc 0] [Q2Qc 1]
  = Ok (Fin (Spec.tau_hat flat_sigmoid true
               (Spec.examples_of [Q2Qc 3] [Q2Qc 0] [Q2Qc 1]))).
Proof.
  apply (batch_tau_hat_is_mean flat_sigmoid per_batch
           [Q2Qc 3] [Q2Qc 0] [Q2Qc 1] 0);
    reflexivity.
Defined.

Lemma first_running_estimate_is_batch_estimate_witness :
  compute_tau_hat flat_sigmoid running_two_epochs None
                  [Q2Qc 2] [Q2Qc 2] [Q2Qc 1]
  = (tau <- batch_tau_hat flat_sigmoid running_two_epochs
                          [Q2Qc 2] [Q2Qc 2] [Q2Qc 1] ;;
     Ok (Some (mkAccumulators [[Q2Qc 2]] [map flat_sigmoid [Q2Qc 2]]
                              [[Q2Qc 1]]), tau)).
Proof.
  apply (first_running_estimate_is_batch_estimate flat_sigmoid
           running_two_epochs [Q2Qc 2] [Q2Qc 2] [Q2Qc 1]);
    reflexivity.
Defined.


Lemma per_batch_mode_keeps_no_history_witness :
  accumulators (fst (fst (run per_batch one_batch))) = None.
Proof.
  apply (per_batch_mode_keeps_no_history Qc unit Qc unit emit read read
           flat_sigmoid no_bce per_batch keep one_batch
           (model_of distilbert) tt).
  reflexivity.
Defined.

(** Keywords out of order, the sentiment head type left to its default. *)
Lemma new_binds_keywords_witness :
  new from_pretrained one_tensor_head one_tensor_head
      [ ("riesz_head_type", VStr "conv");
        ("pretrained_model_name", VStr "distilbert-base-uncased") ]
  = init from_pretrained one_tensor_head one_tensor_head
         "distilbert-base-uncased" "fcn" "conv".
Proof.
  apply (proj2 (proj2 (new_binds_keywords from_pretrained one_tensor_head
                         one_tensor_head
                         [ ("riesz_head_type", VStr "conv");
                           ("pretrained_model_name",
                            VStr "distilbert-base-uncased") ])
                      ltac:(intros k v [[= <- <-]|[[= <- <-]|[]]];
                            reflexivity))
               "distilbert-base-uncased" None (Some "conv"));
    reflexivity.
Defined.

(** Two batches of one example each. *)
Lemma running_tau_hat_estimated_witness :
  exists a,
    accumulate_all flat_sigmoid None
      [([Q2Qc 2], [Q2Qc 0], [Q2Qc 1]); ([Q2Qc 4], [Q2Qc 0], [Q2Qc 1])]
    = Some a
    /\ running_tau_hat running_two_epochs a
       = Ok (Fin (Spec.tau_hat flat_sigmoid true
                    (Spec.examples_of_batches
                       [([Q2Qc 2], [Q2Qc 0], [Q2Qc 1]);
                        ([Q2Qc 4], [Q2Qc 0], [Q2Qc 1])]))).
Proof.
  apply (running_tau_hat_estimated flat_sigmoid running_two_epochs).
  - reflexivity.
  - repeat constructor.
  - discriminate.
Defined.

Lemma running_tau_hat_true_targets_witness :
  exists a,
    accumulate_all flat_sigmoid None
      [([Q2Qc 2], [Q2Qc 0], [Q2Qc 1]); ([Q2Qc 4], [Q2Qc 0], [Q2Qc 1])]
    = Some a
    /\ running_tau_hat running_on_targets a
       = Ok (Fin (Spec.average
                    (map Spec.ex_target
                       (Spec.examples_of_batches
                          [([Q2Qc 2], [Q2Qc 0], [Q2Qc 1]);
                           ([Q2Qc 4], [Q2Qc 0], [Q2Qc 1])])))).
Proof.
  apply (running_tau_hat_true_targets flat_sigmoid running_on_targets).
  - reflexivity.
  - repeat constructor.
  - discriminate.
Defined.

End MoreLoopExamples.

(** ** A backbone without weights *)

Section ZeroDivision.

Lemma percentage_no_weights (ps : list Param) :
  total_numel ps = 0%N -> percentage ps = Err ZeroDivisionError.
Proof.
  intros H. unfold percentage, truediv. now rewrite H.
Qed.

(** X20: When the backbone parameters hold no weight at all, the backbone
    percentage raises [ZeroDivisionError], and so does every
    [unfreeze_backbone] call that gets to its report: the no-op call with
    a count of zero, and the call with "all", which raises after it has
    set every flag of the backbone. *)
Theorem empty_backbone_divides_by_zero (m : CausalSent) (e : Encoder) :
  total_numel (backbone_parameters (backbone m)) = 0%N ->
  get_encoder (backbone m) = Some e ->
  percentage_trainable_backbone_params m = Err ZeroDivisionError
  /\ unfreeze_backbone (NInt 0) m = (Err ZeroDivisionError, m)
  /\ unfreeze_backbone (NStr "all") m
     = (Err ZeroDivisionError,
        with_backbone m (set_backbone true (backbone m))).
Proof.
  intros H0 He.
  assert (Hb : percentage_trainable_backbone_params m = Err ZeroDivisionError)
    by now apply percentage_no_weights.
  split; [exact Hb|]. split.
  - unfold unfreeze_backbone. cbn [Z.leb Z.compare]. f_equal.
    unfold report. rewrite Hb.
    destruct (percentage_trainable_params m) as [v|e0] eqn:E; [reflexivity|].
    cbn [bind]. f_equal. now apply report_error with (m := m);
      unfold report; rewrite E.
  - unfold unfreeze_backbone. rewrite He.
    cbn [String.eqb Ascii.eqb Bool.eqb]. f_equal.
    rewrite percentage_no_weights; [reflexivity|].
    cbn [with_backbone backbone]. now rewrite total_numel_set_backbone.
Qed.

Lemma empty_backbone_divides_by_zero_witness :
  percentage_trainable_backbone_params Examples.weightless
  = Err ZeroDivisionError
  /\ unfreeze_backbone (NInt 0) Examples.weightless
     = (Err ZeroDivisionError, Examples.weightless)
  /\ unfreeze_backbone (NStr "all") Examples.weightless
     = (Err ZeroDivisionError,
        with_backbone Examples.weightless
          (set_backbone true (backbone Examples.weightless))).
Proof.
  apply (empty_backbone_divides_by_zero Examples.weightless
           (mkEncoder [[Examples.frozen 0]] []));
    reflexivity.
Defined.

End ZeroDivision.
